(** * Ingredient service: status classifier, token validator, record manager

    A shallow embedding of [Backend/IngredientServices/routers/ingredients.py].

    - Python [float] is IEEE binary64: amounts are primitive floats and the
      comparison [<=] is [PrimFloat.leb] (false as soon as one side is NaN).
      The integer thresholds 50, 100 and 1 are exactly representable, so the
      mixed int/float comparisons of the source are float comparisons.
    - Python [str] is [string]; [str.lower] and the case-insensitive
      collation of the name column act on the ASCII letters.
    - The [thresholds] dict and the parsed JSON object are [gmap string _].
    - The identity service is an oracle from bearer tokens to what
      [client.get] ends with; [raise_for_status] raises on every status that
      is not 2xx.
    - The table is a list of rows with the counter of its identity column.
      A connection carries the committed table and the table as its
      transaction sees it; closing it rolls back what was not committed.
      Whether [get_db_connection] opens connections in autocommit mode is a
      parameter ([database.py] is not among the sources); opening a
      connection is taken to succeed.
    - The endpoints run in a small state-and-exception monad over the
      connection and record the database calls in a trace. *)

From Stdlib Require Import Floats ZArith Ascii.
From stdpp Require Import gmap strings list pretty.

Set Warnings "-inexact-float".

Open Scope string_scope.
Open Scope Z_scope.
Open Scope list_scope.

(** ** Python strings *)

Module Str.

(** [c.lower()] for one character: A..Z are moved to a..z. *)
Definition lower_char (c : ascii) : ascii :=
  let n := N_of_ascii c in
  if ((65 <=? n) && (n <=? 90))%N then ascii_of_N (n + 32) else c.

(** [s.lower()]. *)
Fixpoint lower (s : string) : string :=
  match s with
  | EmptyString => EmptyString
  | String c rest => String (lower_char c) (lower rest)
  end.

(** [s or ""] for an [Optional[str]]: [None] and the empty string are the
    falsy values. *)
Definition or_empty (s : option string) : string :=
  match s with
  | None => ""
  | Some EmptyString => ""
  | Some t => t
  end.

(** Equality under the collation [Latin1_General_CI_AS]: the
    case-insensitive comparison of the name column. *)
Definition ci_eqb (a b : string) : bool := String.eqb (lower a) (lower b).

End Str.

(** ** Status classifier *)

(** [thresholds = {"g": 50, "kg": 0.5, "ml": 100, "l": 0.5}] *)
Definition thresholds : gmap string float :=
  <["g" := 50%float]> (<["kg" := 0.5%float]>
  (<["ml" := 100%float]> (<["l" := 0.5%float]> ∅))).

(** [d.get(k, dflt)] *)
Definition dict_get {V : Type} (d : gmap string V) (k : string) (dflt : V) : V :=
  default dflt (d !! k).

(** [get_status(amount, measurement)]; [measurement] may be [None]. *)
Definition get_status (amount : float) (measurement : option string) : string :=
  let meas_lower := Str.lower (Str.or_empty measurement) in
  if (amount <=? 0)%float then "Not Available"
  else if (amount <=? dict_get thresholds meas_lower 1)%float then "Low Stock"
  else "Available".

(** The classifier as the specification words it: a fixed per-unit table with
    default 1, the unit matched without regard to case. *)
Module Spec.



End Spec.

(** ** Python values and outcomes *)

(** The JSON values the validator reads out of a parsed body. Only [None]
    and strings are told apart by the code; any other value (number, boolean,
    array, object) is never equal to a role name and is kept with the text
    that [str] gives for it. *)
Inductive pyval : Type :=
| PyNone
| PyStr (s : string)
| PyOther (shown : string).

(** [str(v)], as an f-string renders [{v}]. *)
Definition py_str (v : pyval) : string :=
  match v with
  | PyNone => "None"
  | PyStr s => s
  | PyOther shown => shown
  end.

(** [v in roles] for a list of strings. *)
Definition py_in (v : pyval) (roles : list string) : bool :=
  match v with
  | PyStr s => bool_decide (s ∈ roles)
  | _ => false
  end.

(** How a call ends: it returns, it raises [HTTPException(status_code,
    detail)], or another exception escapes (the framework answers 500). *)
Inductive outcome (A : Type) : Type :=
| Return (a : A)
| HTTPException (status_code : Z) (detail : string)
| Uncaught (exception : string).
Arguments Return {A} a.
Arguments HTTPException {A} status_code detail.
Arguments Uncaught {A} exception.

Definition HTTP_200_OK : Z := 200.
Definition HTTP_403_FORBIDDEN : Z := 403.
Definition HTTP_404_NOT_FOUND : Z := 404.
Definition HTTP_409_CONFLICT : Z := 409.
Definition HTTP_500_INTERNAL_SERVER_ERROR : Z := 500.
Definition HTTP_503_SERVICE_UNAVAILABLE : Z := 503.

(** The status line of the answer, for a route declared with [success]. *)
Definition http_status {A : Type} (success : Z) (o : outcome A) : Z :=
  match o with
  | Return _ => success
  | HTTPException code _ => code
  | Uncaught _ => HTTP_500_INTERNAL_SERVER_ERROR
  end.

(** ** The identity service seen through httpx *)

Module Httpx.

(** What [response.json()] gives: it raises on a body that is not JSON,
    and only a JSON object has [.get]. *)
Inductive json_body : Type :=
| NotJson
| JsonObject (fields : gmap string pyval)
| JsonOther.

Record Response : Type := mkResponse {
  status_code : Z;
  text : string;
  json : json_body
}.

(** [Response.is_success]: the 2xx codes. [raise_for_status] raises
    [HTTPStatusError] on every other code. *)
Definition is_success (r : Response) : bool :=
  (200 <=? status_code r) && (status_code r <=? 299).

(** The subclasses of [httpx.RequestError] a GET can end with. *)
Inductive RequestError : Type :=
| ConnectError
| ConnectTimeout
| ReadTimeout
| WriteTimeout
| PoolTimeout
| ReadError
| WriteError
| CloseError
| ProtocolError
| ProxyError
| UnsupportedProtocol
| DecodingError
| TooManyRedirects.

(** The end of [client.get(url, headers=...)]: a response, or a
    [RequestError] [e] with its text [str(e)]. *)
Inductive reply : Type :=
| Responded (response : Response)
| Failed (e : RequestError) (message : string).

End Httpx.

(** ** Token validator *)

(** The detail built in the [except httpx.HTTPStatusError] branch; the bare
    [except] falls back on the body text when [json()] or [.get] raises. *)
Definition error_detail (response : Httpx.Response) : string :=
  "Ingredients Auth service error: " +:+ pretty (Httpx.status_code response) +:+
  match Httpx.json response with
  | Httpx.JsonObject fields =>
      " - " +:+ py_str (dict_get fields "detail" (PyStr (Httpx.text response)))
  | Httpx.NotJson | Httpx.JsonOther => " - " +:+ Httpx.text response
  end.

(** [validate_token_and_roles(token, allowed_roles)]. [identity_service] is
    the answer of [GET /auth/users/me] to a bearer token. *)
Definition validate_token_and_roles (identity_service : string -> Httpx.reply)
    (token : string) (allowed_roles : list string) : outcome unit :=
  match identity_service token with
  | Httpx.Failed e message =>
      HTTPException HTTP_503_SERVICE_UNAVAILABLE
        ("Ingredients Auth service unavailable: " +:+ message)
  | Httpx.Responded response =>
      if negb (Httpx.is_success response) then
        HTTPException (Httpx.status_code response) (error_detail response)
      else
        match Httpx.json response with
        | Httpx.NotJson => Uncaught "JSONDecodeError"
        | Httpx.JsonOther => Uncaught "AttributeError"
        | Httpx.JsonObject user_data =>
            let user_role := dict_get user_data "userRole" PyNone in
            if negb (py_in user_role allowed_roles) then
              HTTPException HTTP_403_FORBIDDEN
                ("Access denied. Required role not met. User has role: '"
                   +:+ py_str user_role +:+ "'")
            else Return tt
        end
  end.

(** ** Data model *)

Record date : Type := mkDate { year : Z; month : Z; day : Z }.

(** The request bodies. Neither has a [Status] field. *)
Module IngredientCreate.
Record t : Type := mk {
  IngredientName : string;
  Amount : float;
  Measurement : string;
  BestBeforeDate : date;
  ExpirationDate : date
}.
End IngredientCreate.

Module IngredientUpdate.
Record t : Type := mk {
  IngredientName : string;
  Amount : float;
  Measurement : string;
  BestBeforeDate : date;
  ExpirationDate : date
}.
End IngredientUpdate.

Module IngredientOut.
Record t : Type := mk {
  IngredientID : Z;
  IngredientName : string;
  Amount : float;
  Measurement : string;
  BestBeforeDate : date;
  ExpirationDate : date;
  Status : string
}.
End IngredientOut.

(** A row of the table [Ingredients]; the measurement column is [Unit]. *)
Module Row.
Record t : Type := mk {
  IngredientID : Z;
  IngredientName : string;
  Amount : float;
  Unit : string;
  BestBeforeDate : date;
  ExpirationDate : date;
  Status : string
}.
End Row.

(** The table with the counter of its identity column: the INSERT of the
    source gives no [IngredientID] and reads the generated one back. The schema
    itself is not among the sources. *)
Record Database : Type := mkDatabase {
  Ingredients : list Row.t;
  next_identity : Z
}.

(** ** The SQL statements of the router *)

Module Sql.

(** [SELECT 1 FROM Ingredients WHERE IngredientName COLLATE
    Latin1_General_CI_AS = ?] *)
Definition select_1_by_name (name : string) (db : Database)
  : list Z * Database :=
  (map (fun _ => 1)
     (filter (fun r => Is_true (Str.ci_eqb (Row.IngredientName r) name))
        (Ingredients db)),
   db).

(** [... WHERE IngredientName COLLATE Latin1_General_CI_AS = ? AND
    IngredientID != ?] *)
Definition select_1_by_name_except (name : string) (id : Z) (db : Database)
  : list Z * Database :=
  (map (fun _ => 1)
     (filter (fun r => Is_true (Str.ci_eqb (Row.IngredientName r) name
                                && negb (Row.IngredientID r =? id)))
        (Ingredients db)),
   db).

(** [INSERT INTO Ingredients (...) OUTPUT INSERTED.* VALUES (?, ?, ?, ?, ?,
    ?)]: the result set is the inserted row. *)
Definition insert (name : string) (amount : float) (measurement : string)
    (best_before expiration : date) (status : string) (db : Database)
  : list Row.t * Database :=
  let row := Row.mk (next_identity db) name amount measurement
               best_before expiration status in
  ([row],
   {| Ingredients := Ingredients db ++ [row];
      next_identity := next_identity db + 1 |}).

(** [UPDATE Ingredients SET ... WHERE IngredientID = ?] *)
Definition update (name : string) (amount : float) (measurement : string)
    (best_before expiration : date) (status : string) (id : Z)
    (db : Database) : unit * Database :=
  (tt,
   {| Ingredients :=
        map (fun r =>
               if Row.IngredientID r =? id
               then Row.mk (Row.IngredientID r) name amount measurement
                      best_before expiration status
               else r)
          (Ingredients db);
      next_identity := next_identity db |}).

(** [SELECT ... FROM Ingredients WHERE IngredientID = ?] *)
Definition select_by_id (id : Z) (db : Database) : list Row.t * Database :=
  (filter (fun r => Is_true (Row.IngredientID r =? id)) (Ingredients db), db).

(** [SELECT ... FROM Ingredients] *)
Definition select_all (db : Database) : list Row.t * Database :=
  (Ingredients db, db).

(** [DELETE FROM Ingredients WHERE IngredientID = ?]: the result is
    [rowcount]. *)
Definition delete (id : Z) (db : Database) : Z * Database :=
  (Z.of_nat
     (length (filter (fun r => Is_true (Row.IngredientID r =? id))
                (Ingredients db))),
   {| Ingredients :=
        filter (fun r => Is_true (negb (Row.IngredientID r =? id)))
          (Ingredients db);
      next_identity := next_identity db |}).

End Sql.

(** ** Connections *)

(** What a request does to the database, in order. *)
Inductive db_event : Type :=
| EvConnect
| EvExecute
| EvCommit
| EvClose.

(** The server between two requests: the committed table and the trace of
    the database calls made so far. *)
Record Server : Type := mkServer {
  persisted : Database;
  trace : list db_event
}.

(** What the router depends on and does not define: the identity service,
    and whether [get_db_connection] opens its connections in autocommit
    mode. *)
Record Env : Type := mkEnv {
  identity_service : string -> Httpx.reply;
  autocommit : bool
}.

(** An open connection: the committed table, the table as the transaction
    of this connection sees it, and the trace. *)
Record Conn : Type := mkConn {
  durable : Database;
  working : Database;
  events : list db_event
}.

(** Code that runs on a connection and may raise. *)
Definition DB (A : Type) : Type := Conn -> outcome A * Conn.

Definition ret {A : Type} (a : A) : DB A := fun c => (Return a, c).

Definition raise {A : Type} (status_code : Z) (detail : string) : DB A :=
  fun c => (HTTPException status_code detail, c).

Definition throw {A : Type} (exception : string) : DB A :=
  fun c => (Uncaught exception, c).

Definition bind {A B : Type} (m : DB A) (k : A -> DB B) : DB B :=
  fun c =>
    match m c with
    | (Return a, c') => k a c'
    | (HTTPException code detail, c') => (HTTPException code detail, c')
    | (Uncaught e, c') => (Uncaught e, c')
    end.

Notation "'let*' x ':=' m 'in' k" := (bind m (fun x => k))
  (at level 10, x name, m at level 99, k at level 200, only parsing).
Notation "m ';;' k" := (bind m (fun _ => k))
  (at level 100, k at level 200, right associativity, only parsing).

(** [try: body finally: final]: [final] runs however [body] ends, and an
    exception of [final] replaces the outcome of [body]. *)
Definition try_finally {A : Type} (body : DB A) (final : DB unit) : DB A :=
  fun c =>
    let '(r, c') := body c in
    match final c' with
    | (Return _, c'') => (r, c'')
    | (HTTPException code detail, c'') => (HTTPException code detail, c'')
    | (Uncaught e, c'') => (Uncaught e, c'')
    end.

(** [conn = await get_db_connection()] *)
Definition get_db_connection : DB unit :=
  fun c => (Return tt, {| durable := durable c; working := working c;
                          events := events c ++ [EvConnect] |}).

(** [await cursor.execute(sql, params)]: the statement runs on the table of
    the transaction, and at once on the committed one under autocommit. *)
Definition execute {A : Type} (env : Env)
    (statement : Database -> A * Database) : DB A :=
  fun c =>
    let ran := statement (working c) in
    (Return (fst ran),
     {| durable := if autocommit env then snd ran else durable c;
        working := snd ran;
        events := events c ++ [EvExecute] |}).

(** [await conn.commit()] *)
Definition commit : DB unit :=
  fun c => (Return tt, {| durable := working c; working := working c;
                          events := events c ++ [EvCommit] |}).

(** [await conn.close()]: what was not committed is rolled back. *)
Definition close : DB unit :=
  fun c => (Return tt, {| durable := durable c; working := durable c;
                          events := events c ++ [EvClose] |}).

(** [cursor.fetchone()]: the first row of the result set, or [None]. *)
Definition fetchone {A : Type} (result_set : list A) : option A :=
  head result_set.

(** The public shape of a row: the column [Unit] is read back as
    [Measurement]. *)
Definition out_of_row (r : Row.t) : IngredientOut.t :=
  IngredientOut.mk (Row.IngredientID r) (Row.IngredientName r)
    (Row.Amount r) (Row.Unit r) (Row.BestBeforeDate r)
    (Row.ExpirationDate r) (Row.Status r).

(** [row_to_dict(row)]: [None] for [None], else the selected columns under
    their names. *)
Definition row_to_dict (row : option Row.t) : option IngredientOut.t :=
  match row with
  | None => None
  | Some r => Some (out_of_row r)
  end.

(** [IngredientOut] built from the keywords of [row_to_dict(row)]; [None]
    cannot be unpacked into keyword arguments. *)
Definition to_IngredientOut (row : option Row.t) : DB IngredientOut.t :=
  match row_to_dict row with
  | None => throw "TypeError"
  | Some fields => ret fields
  end.

(** A request: the validator first; then the body on a connection taken
    from the server, whose state afterwards is what the connection left
    committed. *)
Definition handle {A : Type} (validation : outcome unit) (body : DB A)
    (s : Server) : outcome A * Server :=
  match validation with
  | Return _ =>
      let '(r, c) := body {| durable := persisted s; working := persisted s;
                             events := trace s |} in
      (r, {| persisted := durable c; trace := events c |})
  | HTTPException code detail => (HTTPException code detail, s)
  | Uncaught e => (Uncaught e, s)
  end.

(** The identity service answers [token] with a 2xx JSON object whose
    [userRole] entry reads as [role] ([None] when the entry is missing). *)
Definition has_role (identity_service : string -> Httpx.reply)
    (token : string) (role : pyval) : Prop :=
  exists (response : Httpx.Response) (user_data : gmap string pyval),
    identity_service token = Httpx.Responded response /\
    Httpx.is_success response = true /\
    Httpx.json response = Httpx.JsonObject user_data /\
    dict_get user_data "userRole" PyNone = role.

(** [endpoint] runs [validation] before anything else: when the validator
    raises, the endpoint ends the same way and leaves the server, trace
    included, as it was; when it returns, the first database event of the
    request is the connection. *)
Definition validated_first {A : Type} (validation : outcome unit)
    (endpoint : Server -> outcome A * Server) (s : Server) : Prop :=
  match validation with
  | Return _ =>
      exists later : list db_event,
        trace (snd (endpoint s)) = trace s ++ EvConnect :: later
  | HTTPException code detail => endpoint s = (HTTPException code detail, s)
  | Uncaught e => endpoint s = (Uncaught e, s)
  end.

(** ** Endpoints *)

Definition read_roles : list string := ["admin"; "manager"; "staff"; "cashier"].
Definition write_roles : list string := ["admin"; "manager"; "staff"].

(** [GET /ingredients/]. In each endpoint the connection is open when the
    [finally] clause runs, so [if conn: await conn.close()] closes it. *)
Definition get_all_ingredients (env : Env) (token : string)
  : Server -> outcome (list IngredientOut.t) * Server :=
  handle (validate_token_and_roles (identity_service env) token read_roles)
    (try_finally
       (get_db_connection ;;
        let* rows := execute env Sql.select_all in
        foldr (fun row acc =>
                 let* out := to_IngredientOut (Some row) in
                 let* outs := acc in
                 ret (out :: outs))
          (ret []) rows)
       close).

(** [POST /ingredients/], declared with [status_code=201]. *)
Definition add_ingredient (env : Env) (ingredient : IngredientCreate.t)
    (token : string) : Server -> outcome IngredientOut.t * Server :=
  handle (validate_token_and_roles (identity_service env) token write_roles)
    (try_finally
       (get_db_connection ;;
        let* found := execute env
          (Sql.select_1_by_name (IngredientCreate.IngredientName ingredient)) in
        match fetchone found with
        | Some _ => raise HTTP_409_CONFLICT "Ingredient name already exists."
        | None =>
          let status_val :=
            get_status (IngredientCreate.Amount ingredient)
              (Some (IngredientCreate.Measurement ingredient)) in
          let* inserted := execute env
            (Sql.insert (IngredientCreate.IngredientName ingredient)
               (IngredientCreate.Amount ingredient)
               (IngredientCreate.Measurement ingredient)
               (IngredientCreate.BestBeforeDate ingredient)
               (IngredientCreate.ExpirationDate ingredient) status_val) in
          let row := fetchone inserted in
          commit ;;
          to_IngredientOut row
        end)
       close).

(** [PUT /ingredients/{ingredient_id}] *)
Definition update_ingredient (env : Env) (ingredient_id : Z)
    (ingredient : IngredientUpdate.t) (token : string)
  : Server -> outcome IngredientOut.t * Server :=
  handle (validate_token_and_roles (identity_service env) token write_roles)
    (try_finally
       (get_db_connection ;;
        let* found := execute env
          (Sql.select_1_by_name_except
             (IngredientUpdate.IngredientName ingredient) ingredient_id) in
        match fetchone found with
        | Some _ => raise HTTP_409_CONFLICT "Ingredient name already exists."
        | None =>
          let status_val :=
            get_status (IngredientUpdate.Amount ingredient)
              (Some (IngredientUpdate.Measurement ingredient)) in
          execute env
            (Sql.update (IngredientUpdate.IngredientName ingredient)
               (IngredientUpdate.Amount ingredient)
               (IngredientUpdate.Measurement ingredient)
               (IngredientUpdate.BestBeforeDate ingredient)
               (IngredientUpdate.ExpirationDate ingredient)
               status_val ingredient_id) ;;
          let* selected := execute env (Sql.select_by_id ingredient_id) in
          let row := fetchone selected in
          match row with
          | None => raise HTTP_404_NOT_FOUND "Ingredient not found"
          | Some _ =>
            commit ;;
            to_IngredientOut row
          end
        end)
       close).

(** [DELETE /ingredients/{ingredient_id}]. The [finally] clause names
    [conn.close] without calling it: the connection stays open. *)
Definition delete_ingredient (env : Env) (ingredient_id : Z) (token : string)
  : Server -> outcome string * Server :=
  handle (validate_token_and_roles (identity_service env) token write_roles)
    (try_finally
       (get_db_connection ;;
        let* rowcount := execute env (Sql.delete ingredient_id) in
        if rowcount =? 0 then
          raise HTTP_404_NOT_FOUND "Ingredient not found"
        else
          commit ;;
          ret "Ingredient deleted successfully")
       (ret tt)).

(** ** The rows that create and update write *)

Definition row_of_create (id : Z) (ingredient : IngredientCreate.t) : Row.t :=
  Row.mk id (IngredientCreate.IngredientName ingredient)
    (IngredientCreate.Amount ingredient)
    (IngredientCreate.Measurement ingredient)
    (IngredientCreate.BestBeforeDate ingredient)
    (IngredientCreate.ExpirationDate ingredient)
    (get_status (IngredientCreate.Amount ingredient)
       (Some (IngredientCreate.Measurement ingredient))).

Definition row_of_update (id : Z) (ingredient : IngredientUpdate.t) : Row.t :=
  Row.mk id (IngredientUpdate.IngredientName ingredient)
    (IngredientUpdate.Amount ingredient)
    (IngredientUpdate.Measurement ingredient)
    (IngredientUpdate.BestBeforeDate ingredient)
    (IngredientUpdate.ExpirationDate ingredient)
    (get_status (IngredientUpdate.Amount ingredient)
       (Some (IngredientUpdate.Measurement ingredient))).

(** ** Invariants of the table *)

(** No two rows with different identifiers have names that match under the
    collation. *)
Definition names_unique (db : Database) : Prop :=
  forall r1 r2 : Row.t,
    r1 ∈ Ingredients db -> r2 ∈ Ingredients db ->
    Str.ci_eqb (Row.IngredientName r1) (Row.IngredientName r2) = true ->
    Row.IngredientID r1 = Row.IngredientID r2.

(** Identifiers are distinct and below the identity counter. *)
Definition ids_unique (db : Database) : Prop :=
  NoDup (map Row.IngredientID (Ingredients db)) /\
  Forall (fun r => Row.IngredientID r < next_identity db) (Ingredients db).

Definition well_formed (db : Database) : Prop :=
  ids_unique db /\ names_unique db.

(** Some row has identifier [id]. *)
Definition has_id (id : Z) (db : Database) : Prop :=
  exists r, r ∈ Ingredients db /\ Row.IngredientID r = id.

(** Some row matches [name] under the collation. *)
Definition has_name (name : string) (db : Database) : Prop :=
  exists r, r ∈ Ingredients db /\ Str.ci_eqb (Row.IngredientName r) name = true.

(** Some row other than [id] matches [name] under the collation. *)
Definition has_name_except (name : string) (id : Z) (db : Database) : Prop :=
  exists r, r ∈ Ingredients db /\
            Str.ci_eqb (Row.IngredientName r) name = true /\
            Row.IngredientID r <> id.

(** Every stored status is the one [get_status] gives for the stored
    amount and unit. *)
Definition status_derived (db : Database) : Prop :=
  Forall (fun r => Row.Status r = get_status (Row.Amount r) (Some (Row.Unit r)))
    (Ingredients db).

(** ** Requests served one after the other *)

Inductive request : Type :=
| GetAll (token : string)
| Add (ingredient : IngredientCreate.t) (token : string)
| Update (ingredient_id : Z) (ingredient : IngredientUpdate.t) (token : string)
| Delete (ingredient_id : Z) (token : string).

(** The server after one request. *)
Definition serve (env : Env) (r : request) (s : Server) : Server :=
  match r with
  | GetAll token => snd (get_all_ingredients env token s)
  | Add ingredient token => snd (add_ingredient env ingredient token s)
  | Update ingredient_id ingredient token =>
      snd (update_ingredient env ingredient_id ingredient token s)
  | Delete ingredient_id token =>
      snd (delete_ingredient env ingredient_id token s)
  end.

(** The server after a sequence of requests, each with the environment it
    met. *)
Fixpoint serve_all (requests : list (Env * request)) (s : Server) : Server :=
  match requests with
  | [] => s
  | (env, r) :: rest => serve_all rest (serve env r s)
  end.

(** ** Sample data *)

Module Sample.

(** A 200 answer of [/auth/users/me] naming [role]. *)
Definition me (role : pyval) : Httpx.reply :=
  Httpx.Responded
    (Httpx.mkResponse 200 "" (Httpx.JsonObject {["userRole" := role]})).

Definition identity (token : string) : Httpx.reply :=
  if String.eqb token "admin-token" then me (PyStr "admin")
  else if String.eqb token "cashier-token" then me (PyStr "cashier")
  else if String.eqb token "guest-token" then me (PyStr "guest")
  else if String.eqb token "null-role-token" then me PyNone
  else if String.eqb token "no-role-token" then
    Httpx.Responded (Httpx.mkResponse 200 "" (Httpx.JsonObject ∅))
  else if String.eqb token "slow-token" then
    Httpx.Failed Httpx.ConnectTimeout "timed out"
  else
    Httpx.Responded
      (Httpx.mkResponse 401 "Unauthorized"
         (Httpx.JsonObject
            {["detail" := PyStr "Could not validate credentials"]})).

Definition env : Env := mkEnv identity false.

Definition day : date := mkDate 2025 6 30.

Definition flour : IngredientCreate.t :=
  IngredientCreate.mk "Flour" 30 "g" day day.
Definition flour_again : IngredientCreate.t :=
  IngredientCreate.mk "flour" 2 "kg" day day.
Definition sugar : IngredientCreate.t :=
  IngredientCreate.mk "Sugar" 0.3 "kg" day day.

Definition flour_refill : IngredientUpdate.t :=
  IngredientUpdate.mk "Flour" 900 "G" day day.
Definition sugar_as_flour : IngredientUpdate.t :=
  IngredientUpdate.mk "FLOUR" 0 "kg" day day.
Definition salt : IngredientUpdate.t :=
  IngredientUpdate.mk "Salt" 1 "kg" day day.

Definition empty : Server := mkServer (mkDatabase [] 1) [].

(** Flour has identifier 1 and sugar identifier 2. *)
Definition stocked : Server :=
  snd (add_ingredient env sugar "admin-token"
         (snd (add_ingredient env flour "admin-token" empty))).

End Sample.

(** ** Further notions used by the properties below *)

(** The three labels in the order of the stock they stand for. *)
Definition label_rank (status : string) : Z :=
  if String.eqb status "Not Available" then 0
  else if String.eqb status "Low Stock" then 1
  else 2.

(** An identity service whose 2xx answers cannot be read as a JSON
    object. *)
Module Garbled.

Definition identity (token : string) : Httpx.reply :=
  if String.eqb token "html-token" then
    Httpx.Responded (Httpx.mkResponse 200 "<html>It works</html>" Httpx.NotJson)
  else
    Httpx.Responded (Httpx.mkResponse 200 "[]" Httpx.JsonOther).

Definition env : Env := mkEnv identity false.

End Garbled.

(** ** Start-up of the products service

    [Backend/ProductServices/main.py] runs top to bottom when the module is
    loaded. What it meets on the way is given by [World]: the two modules of
    the [routers] package as the import statements find them, and the disk.
    Log calls change nothing and are left out. *)

Module Main.














(** [read_is_root()] *)
Definition read_is_root : string :=
  "Welcome to the Inventory Management System API (IMS).".



End Main.

(** ** Proof automation *)

(** Case analysis on the membership [H] of an element in a literal list. *)
Ltac list_cases H :=
  repeat (apply elem_of_cons in H as [->|H]); [..|inversion H].

(** ** Lemmas on strings and on the threshold table *)


Lemma lower_char_idem (c : ascii) :
  Str.lower_char (Str.lower_char c) = Str.lower_char c.
Proof.
  destruct c as [[] [] [] [] [] [] [] []]; reflexivity.
Qed.

Lemma lower_idem (s : string) : Str.lower (Str.lower s) = Str.lower s.
Proof.
  induction s as [|c s IH]; simpl; [reflexivity|].
  rewrite lower_char_idem, IH. reflexivity.
Qed.


Lemma ci_eqb_sym (a b : string) : Str.ci_eqb a b = Str.ci_eqb b a.
Proof. unfold Str.ci_eqb. apply String.eqb_sym. Qed.

Lemma ci_eqb_eq (a b : string) :
  Str.ci_eqb a b = true <-> Str.lower a = Str.lower b.
Proof. unfold Str.ci_eqb. apply String.eqb_eq. Qed.

Lemma ci_eqb_trans (a b c : string) :
  Str.ci_eqb a b = true -> Str.ci_eqb b c = true -> Str.ci_eqb a c = true.
Proof. rewrite !ci_eqb_eq. congruence. Qed.

Lemma ci_eqb_lower (a : string) : Str.ci_eqb (Str.lower a) a = true.
Proof. apply ci_eqb_eq, lower_idem. Qed.

(** The dict lookup with default is the table of the specification. *)
Lemma thresholds_get (k : string) :
  dict_get thresholds k 1%float =
    if String.eqb k "g" then 50%float
    else if String.eqb k "kg" then 0.5%float
    else if String.eqb k "ml" then 100%float
    else if String.eqb k "l" then 0.5%float
    else 1%float.
Proof.
  unfold dict_get, thresholds.
  destruct (String.eqb_spec k "g") as [->|Hg]; [reflexivity|].
  rewrite lookup_insert_ne by congruence.
  destruct (String.eqb_spec k "kg") as [->|Hkg]; [reflexivity|].
  rewrite lookup_insert_ne by congruence.
  destruct (String.eqb_spec k "ml") as [->|Hml]; [reflexivity|].
  rewrite lookup_insert_ne by congruence.
  destruct (String.eqb_spec k "l") as [->|Hl]; [reflexivity|].
  rewrite lookup_insert_ne by congruence.
  rewrite lookup_empty. reflexivity.
Qed.


(** ** Claims about the classifier *)


(** ** Lemmas on result sets *)

Lemma head_filter_None {A : Type} (P : A -> Prop) `{!forall x, Decision (P x)}
    (l : list A) :
  head (filter P l) = None <-> forall x, x ∈ l -> ~ P x.
Proof.
  induction l as [|a l IH].
  - split; [|reflexivity]. intros _ x Hx. inversion Hx.
  - rewrite filter_cons. destruct (decide (P a)) as [Ha|Ha]; simpl.
    + split; [discriminate|]. intros Hall. exfalso.
      apply (Hall a); [left|exact Ha].
    + rewrite IH. split.
      * intros Hall x Hx. apply elem_of_cons in Hx as [->|Hx]; auto.
      * intros Hall x Hx. apply Hall. right. exact Hx.
Qed.

Lemma fetchone_map {A B : Type} (f : A -> B) (l : list A) :
  fetchone (map f l) = f <$> fetchone l.
Proof. destruct l; reflexivity. Qed.

Lemma fetchone_by_name_None (name : string) (db : Database) :
  fetchone (fst (Sql.select_1_by_name name db)) = None <-> ~ has_name name db.
Proof.
  unfold Sql.select_1_by_name, has_name. simpl. rewrite fetchone_map.
  unfold fetchone. rewrite fmap_None, head_filter_None. split.
  - intros Hall (r & Hr & Hm). apply (Hall r Hr). rewrite Hm. exact I.
  - intros Hno r Hr Hm. apply Hno. exists r. split; [exact Hr|].
    apply Is_true_true. exact Hm.
Qed.

Lemma fetchone_by_name_except_None (name : string) (id : Z) (db : Database) :
  fetchone (fst (Sql.select_1_by_name_except name id db)) = None <->
  ~ has_name_except name id db.
Proof.
  unfold Sql.select_1_by_name_except, has_name_except. simpl.
  rewrite fetchone_map. unfold fetchone.
  rewrite fmap_None, head_filter_None. split.
  - intros Hall (r & Hr & Hm & Hid). apply (Hall r Hr).
    rewrite Hm. simpl. apply Is_true_true, negb_true_iff, Z.eqb_neq, Hid.
  - intros Hno r Hr Hm. apply Hno. exists r. split; [exact Hr|].
    apply Is_true_true, andb_true_iff in Hm as [Hm Hid].
    split; [exact Hm|]. apply Z.eqb_neq, negb_true_iff, Hid.
Qed.

Lemma fetchone_by_id_None (id : Z) (db : Database) :
  fetchone (fst (Sql.select_by_id id db)) = None <-> ~ has_id id db.
Proof.
  unfold Sql.select_by_id, has_id, fetchone. simpl.
  rewrite head_filter_None. split.
  - intros Hall (r & Hr & Hid). apply (Hall r Hr).
    apply Is_true_true, Z.eqb_eq, Hid.
  - intros Hno r Hr Hid. apply Hno. exists r. split; [exact Hr|].
    apply Z.eqb_eq, Is_true_true, Hid.
Qed.

Lemma rowcount_zero (id : Z) (db : Database) :
  fst (Sql.delete id db) = 0 <-> ~ has_id id db.
Proof.
  rewrite <- fetchone_by_id_None. unfold Sql.delete, Sql.select_by_id, fetchone.
  simpl. destruct (filter _ (Ingredients db)); simpl; split;
    (reflexivity || discriminate || lia).
Qed.

(** After the UPDATE, the first row selected by the identifier is the
    rewritten one, if the identifier is in the table at all. *)
Lemma fetchone_after_update (name : string) (amount : float)
    (measurement : string) (best_before expiration : date) (status : string)
    (id : Z) (db : Database) :
  fetchone (fst (Sql.select_by_id id
                   (snd (Sql.update name amount measurement best_before
                           expiration status id db)))) =
    match fetchone (fst (Sql.select_by_id id db)) with
    | Some _ => Some (Row.mk id name amount measurement best_before
                        expiration status)
    | None => None
    end.
Proof.
  unfold Sql.select_by_id, Sql.update, fetchone. simpl.
  induction (Ingredients db) as [|r l IH]; [reflexivity|].
  simpl. rewrite !filter_cons.
  destruct (Row.IngredientID r =? id) eqn:E; simpl; rewrite E; simpl.
  - apply Z.eqb_eq in E. rewrite E. reflexivity.
  - exact IH.
Qed.

(** ** What each endpoint computes once the validator has returned *)

Lemma add_ingredient_run (env : Env) (ingredient : IngredientCreate.t)
    (token : string) (s : Server) :
  validate_token_and_roles (identity_service env) token write_roles = Return tt ->
  add_ingredient env ingredient token s =
    match fetchone (fst (Sql.select_1_by_name
                           (IngredientCreate.IngredientName ingredient)
                           (persisted s))) with
    | Some _ =>
        (HTTPException 409 "Ingredient name already exists.",
         {| persisted := persisted s;
            trace := trace s ++ [EvConnect; EvExecute; EvClose] |})
    | None =>
        let row := row_of_create (next_identity (persisted s)) ingredient in
        (Return (out_of_row row),
         {| persisted :=
              {| Ingredients := Ingredients (persisted s) ++ [row];
                 next_identity := next_identity (persisted s) + 1 |};
            trace := trace s ++
                       [EvConnect; EvExecute; EvExecute; EvCommit; EvClose] |})
    end.
Proof.
  intros Hv. unfold add_ingredient, handle. rewrite Hv.
  cbv [try_finally bind get_db_connection execute close commit raise ret
       to_IngredientOut row_to_dict durable working events].
  destruct (fetchone (fst (Sql.select_1_by_name _ _))); simpl;
    destruct (autocommit env); simpl; rewrite <- ?app_assoc; reflexivity.
Qed.

Lemma update_rows (row : Row.t) (id : Z) (l : list Row.t) :
  Row.IngredientID row = id ->
  map (fun r => if Row.IngredientID r =? id
                then Row.mk (Row.IngredientID r) (Row.IngredientName row)
                       (Row.Amount row) (Row.Unit row)
                       (Row.BestBeforeDate row) (Row.ExpirationDate row)
                       (Row.Status row)
                else r) l =
  map (fun r => if Row.IngredientID r =? id then row else r) l.
Proof.
  intros Hid. apply map_ext. intros r.
  destruct (Z.eqb_spec (Row.IngredientID r) id) as [->|_]; [|reflexivity].
  destruct row; simpl in *. rewrite Hid. reflexivity.
Qed.

Lemma update_absent (row : Row.t) (id : Z) (l : list Row.t) :
  head (filter (fun r => Is_true (Row.IngredientID r =? id)) l) = None ->
  map (fun r => if Row.IngredientID r =? id then row else r) l = l.
Proof.
  rewrite head_filter_None. intros Hall.
  induction l as [|r l IH]; [reflexivity|]. simpl.
  rewrite IH by (intros x Hx; apply Hall; right; exact Hx).
  destruct (Row.IngredientID r =? id) eqn:E; [|reflexivity].
  exfalso. apply (Hall r); [left|]. rewrite E. exact I.
Qed.

Lemma update_ingredient_run (env : Env) (ingredient_id : Z)
    (ingredient : IngredientUpdate.t) (token : string) (s : Server) :
  validate_token_and_roles (identity_service env) token write_roles = Return tt ->
  update_ingredient env ingredient_id ingredient token s =
    match fetchone (fst (Sql.select_1_by_name_except
                           (IngredientUpdate.IngredientName ingredient)
                           ingredient_id (persisted s))) with
    | Some _ =>
        (HTTPException 409 "Ingredient name already exists.",
         {| persisted := persisted s;
            trace := trace s ++ [EvConnect; EvExecute; EvClose] |})
    | None =>
        let row := row_of_update ingredient_id ingredient in
        match fetchone (fst (Sql.select_by_id ingredient_id (persisted s))) with
        | Some _ =>
            (Return (out_of_row row),
             {| persisted :=
                  {| Ingredients :=
                       map (fun r => if Row.IngredientID r =? ingredient_id
                                     then row else r)
                         (Ingredients (persisted s));
                     next_identity := next_identity (persisted s) |};
                trace := trace s ++ [EvConnect; EvExecute; EvExecute;
                                     EvExecute; EvCommit; EvClose] |})
        | None =>
            (HTTPException 404 "Ingredient not found",
             {| persisted := persisted s;
                trace := trace s ++ [EvConnect; EvExecute; EvExecute;
                                     EvExecute; EvClose] |})
        end
    end.
Proof.
  intros Hv. unfold update_ingredient, handle. rewrite Hv.
  cbv [try_finally bind get_db_connection execute close commit raise ret
       to_IngredientOut row_to_dict durable working events].
  destruct (fetchone (fst (Sql.select_1_by_name_except _ _ _))) eqn:Hc.
  - destruct (autocommit env); simpl; rewrite <- ?app_assoc; reflexivity.
  - change (snd (Sql.select_1_by_name_except
                   (IngredientUpdate.IngredientName ingredient) ingredient_id
                   (persisted s))) with (persisted s).
    rewrite fetchone_after_update.
    destruct (fetchone (fst (Sql.select_by_id _ _))) eqn:Hid.
    + unfold Sql.select_by_id, Sql.update, out_of_row. simpl.
      rewrite (update_rows (row_of_update ingredient_id ingredient))
        by reflexivity.
      rewrite <- !app_assoc. simpl.
      destruct (autocommit env); reflexivity.
    + unfold Sql.select_by_id, Sql.update. simpl.
      rewrite (update_rows (row_of_update ingredient_id ingredient))
        by reflexivity.
      rewrite (update_absent _ _ _ Hid).
      rewrite <- !app_assoc. simpl.
      destruct (persisted s); destruct (autocommit env); reflexivity.
Qed.

Lemma delete_absent (id : Z) (db : Database) :
  fst (Sql.delete id db) = 0 -> snd (Sql.delete id db) = db.
Proof.
  rewrite rowcount_zero. unfold has_id, Sql.delete. simpl. intros Hno.
  destruct db as [l n]. simpl in *. f_equal.
  induction l as [|r l IH]; [reflexivity|].
  rewrite filter_cons.
  destruct (Z.eqb_spec (Row.IngredientID r) id) as [Heq|Hne]; simpl.
  - exfalso. apply Hno. exists r. split; [left|exact Heq].
  - f_equal. apply IH. intros (x & Hx & Hid). apply Hno.
    exists x. split; [right; exact Hx|exact Hid].
Qed.

Lemma delete_ingredient_run (env : Env) (ingredient_id : Z) (token : string)
    (s : Server) :
  validate_token_and_roles (identity_service env) token write_roles = Return tt ->
  delete_ingredient env ingredient_id token s =
    if fst (Sql.delete ingredient_id (persisted s)) =? 0 then
      (HTTPException 404 "Ingredient not found",
       {| persisted := persisted s;
          trace := trace s ++ [EvConnect; EvExecute] |})
    else
      (Return "Ingredient deleted successfully",
       {| persisted := snd (Sql.delete ingredient_id (persisted s));
          trace := trace s ++ [EvConnect; EvExecute; EvCommit] |}).
Proof.
  intros Hv. unfold delete_ingredient, handle. rewrite Hv.
  cbv [try_finally bind get_db_connection execute close commit raise ret
       durable working events].
  destruct (Z.eqb_spec (fst (Sql.delete ingredient_id (persisted s))) 0)
    as [H0|Hn].
  - rewrite (delete_absent _ _ H0). rewrite <- !app_assoc. simpl.
    destruct (autocommit env); reflexivity.
  - rewrite <- !app_assoc. simpl. reflexivity.
Qed.

Lemma collect_rows (rows : list Row.t) (c : Conn) :
  foldr (fun row acc =>
           let* out := to_IngredientOut (Some row) in
           let* outs := acc in
           ret (out :: outs))
    (ret []) rows c = (Return (map out_of_row rows), c).
Proof.
  induction rows as [|r rows IH]; [reflexivity|].
  cbn [foldr]. unfold bind at 1.
  change (to_IngredientOut (Some r) c) with (Return (out_of_row r), c).
  cbv beta iota. unfold bind at 1. rewrite IH. reflexivity.
Qed.

Lemma get_all_ingredients_run (env : Env) (token : string) (s : Server) :
  validate_token_and_roles (identity_service env) token read_roles = Return tt ->
  get_all_ingredients env token s =
    (Return (map out_of_row (Ingredients (persisted s))),
     {| persisted := persisted s;
        trace := trace s ++ [EvConnect; EvExecute; EvClose] |}).
Proof.
  intros Hv. unfold get_all_ingredients, handle. rewrite Hv.
  unfold try_finally, bind at 1.
  cbv [get_db_connection durable working events].
  unfold bind at 1. cbv [execute durable working events].
  rewrite collect_rows. unfold Sql.select_all, close. simpl.
  rewrite <- !app_assoc. simpl.
  destruct (autocommit env); reflexivity.
Qed.

Lemma head_filter_Some {A : Type} (P : A -> Prop) `{!forall x, Decision (P x)}
    (l : list A) (x : A) :
  head (filter P l) = Some x -> x ∈ l /\ P x.
Proof.
  intros Hhead. apply head_Some_elem_of in Hhead.
  apply list_elem_of_filter in Hhead as [HP Hx]. split; assumption.
Qed.


Lemma fetchone_by_name_except_Some (name : string) (id : Z) (db : Database)
    (x : Z) :
  fetchone (fst (Sql.select_1_by_name_except name id db)) = Some x ->
  has_name_except name id db.
Proof.
  unfold Sql.select_1_by_name_except, has_name_except. simpl.
  rewrite fetchone_map. unfold fetchone. intros Hhead.
  apply fmap_Some in Hhead as (r & Hhead & _).
  apply head_filter_Some in Hhead as [Hr HP].
  exists r. split; [exact Hr|].
  apply Is_true_true, andb_true_iff in HP as [Hm Hid].
  split; [exact Hm|]. apply Z.eqb_neq, negb_true_iff, Hid.
Qed.

Lemma fetchone_by_id_Some (id : Z) (db : Database) (r : Row.t) :
  fetchone (fst (Sql.select_by_id id db)) = Some r -> has_id id db.
Proof.
  unfold Sql.select_by_id, has_id, fetchone. simpl. intros Hhead.
  apply head_filter_Some in Hhead as [Hr HP].
  exists r. split; [exact Hr|]. apply Z.eqb_eq, Is_true_true, HP.
Qed.



(** ** The invariants are kept by every request *)

Lemma well_formed_insert (db : Database) (row : Row.t) :
  well_formed db ->
  Row.IngredientID row = next_identity db ->
  ~ has_name (Row.IngredientName row) db ->
  well_formed {| Ingredients := Ingredients db ++ [row];
                 next_identity := next_identity db + 1 |}.
Proof.
  intros [[Hnodup Hbelow] Hnames] Hid Hfree.
  split; [split|]; simpl.
  - rewrite map_app. apply NoDup_app. split; [exact Hnodup|]. split.
    + intros x Hx Hx'. apply list_elem_of_fmap in Hx as (r & -> & Hr).
      apply list_elem_of_singleton in Hx'.
      rewrite Forall_forall in Hbelow. specialize (Hbelow r Hr). simpl in *. lia.
    + apply NoDup_singleton.
  - apply Forall_app. split.
    + eapply Forall_impl; [exact Hbelow|]. simpl. intros r Hr. lia.
    + apply Forall_singleton. lia.
  - intros r1 r2 H1 H2 Hm.
    apply elem_of_app in H1 as [H1|H1]; apply elem_of_app in H2 as [H2|H2].
    + exact (Hnames r1 r2 H1 H2 Hm).
    + apply list_elem_of_singleton in H2 as ->. exfalso. apply Hfree.
      exists r1. split; assumption.
    + apply list_elem_of_singleton in H1 as ->. exfalso. apply Hfree.
      exists r2. split; [exact H2|]. rewrite ci_eqb_sym. exact Hm.
    + apply list_elem_of_singleton in H1 as ->.
      apply list_elem_of_singleton in H2 as ->. reflexivity.
Qed.

Lemma well_formed_update (db : Database) (row : Row.t) :
  well_formed db ->
  ~ has_name_except (Row.IngredientName row) (Row.IngredientID row) db ->
  well_formed
    {| Ingredients :=
         map (fun r => if Row.IngredientID r =? Row.IngredientID row
                       then row else r) (Ingredients db);
       next_identity := next_identity db |}.
Proof.
  intros [[Hnodup Hbelow] Hnames] Hfree.
  set (f := fun r => if Row.IngredientID r =? Row.IngredientID row
                     then row else r).
  assert (Hf : forall r, Row.IngredientID (f r) = Row.IngredientID r).
  { intros r. unfold f.
    destruct (Z.eqb_spec (Row.IngredientID r) (Row.IngredientID row));
      congruence. }
  split; [split|]; simpl.
  - rewrite map_map. rewrite (map_ext _ Row.IngredientID Hf). exact Hnodup.
  - apply Forall_forall. intros r' Hr'.
    apply list_elem_of_fmap in Hr' as (r & -> & Hr). rewrite Hf.
    rewrite Forall_forall in Hbelow. exact (Hbelow r Hr).
  - intros r1' r2' H1 H2 Hm.
    apply list_elem_of_fmap in H1 as (r1 & -> & H1).
    apply list_elem_of_fmap in H2 as (r2 & -> & H2).
    rewrite !Hf. unfold f in Hm.
    destruct (Z.eqb_spec (Row.IngredientID r1) (Row.IngredientID row))
      as [E1|N1];
      destruct (Z.eqb_spec (Row.IngredientID r2) (Row.IngredientID row))
        as [E2|N2].
    + congruence.
    + exfalso. apply Hfree. exists r2. split; [exact H2|].
      split; [rewrite ci_eqb_sym; exact Hm|exact N2].
    + exfalso. apply Hfree. exists r1. split; [exact H1|].
      split; [exact Hm|exact N1].
    + exact (Hnames r1 r2 H1 H2 Hm).
Qed.

Lemma well_formed_delete (id : Z) (db : Database) :
  well_formed db -> well_formed (snd (Sql.delete id db)).
Proof.
  intros [[Hnodup Hbelow] Hnames]. unfold Sql.delete. simpl.
  split; [split|]; simpl.
  - eapply sublist_NoDup; [exact Hnodup|].
    apply (fmap_sublist Row.IngredientID), sublist_filter.
  - apply Forall_forall. intros r Hr.
    apply list_elem_of_filter in Hr as [_ Hr].
    rewrite Forall_forall in Hbelow. exact (Hbelow r Hr).
  - intros r1 r2 H1 H2 Hm.
    apply list_elem_of_filter in H1 as [_ H1].
    apply list_elem_of_filter in H2 as [_ H2].
    exact (Hnames r1 r2 H1 H2 Hm).
Qed.

Lemma well_formed_empty (n : Z) : well_formed (mkDatabase [] n).
Proof.
  split; [split|]; simpl.
  - apply NoDup_nil_2.
  - apply Forall_nil_2.
  - intros r1 r2 H1. inversion H1.
Qed.

Lemma status_derived_update (db : Database) (row : Row.t) :
  status_derived db ->
  Row.Status row = get_status (Row.Amount row) (Some (Row.Unit row)) ->
  status_derived
    {| Ingredients :=
         map (fun r => if Row.IngredientID r =? Row.IngredientID row
                       then row else r) (Ingredients db);
       next_identity := next_identity db |}.
Proof.
  unfold status_derived. simpl. intros Hall Hrow.
  apply Forall_forall. intros r' Hr'.
  apply list_elem_of_fmap in Hr' as (r & -> & Hr).
  destruct (Row.IngredientID r =? Row.IngredientID row); [exact Hrow|].
  rewrite Forall_forall in Hall. exact (Hall r Hr).
Qed.

Lemma status_derived_delete (id : Z) (db : Database) :
  status_derived db -> status_derived (snd (Sql.delete id db)).
Proof.
  unfold status_derived, Sql.delete. simpl. intros Hall.
  apply Forall_forall. intros r Hr.
  apply list_elem_of_filter in Hr as [_ Hr].
  rewrite Forall_forall in Hall. exact (Hall r Hr).
Qed.

(** What one request does to the committed table: nothing, or the INSERT of
    a row under a free name, or the UPDATE of a row to a name no other row
    has, or the DELETE. *)
Lemma serve_cases (env : Env) (r : request) (s : Server) :
  persisted (serve env r s) = persisted s \/
  (exists ingredient : IngredientCreate.t,
     ~ has_name (IngredientCreate.IngredientName ingredient) (persisted s) /\
     persisted (serve env r s) =
       {| Ingredients :=
            Ingredients (persisted s) ++
              [row_of_create (next_identity (persisted s)) ingredient];
          next_identity := next_identity (persisted s) + 1 |}) \/
  (exists (id : Z) (ingredient : IngredientUpdate.t),
     ~ has_name_except (IngredientUpdate.IngredientName ingredient) id
         (persisted s) /\
     persisted (serve env r s) =
       {| Ingredients :=
            map (fun r => if Row.IngredientID r =? id
                          then row_of_update id ingredient else r)
              (Ingredients (persisted s));
          next_identity := next_identity (persisted s) |}) \/
  (exists id : Z,
     persisted (serve env r s) = snd (Sql.delete id (persisted s))).
Proof.
  destruct r as [token|ingredient token|id ingredient token|id token]; simpl.
  - left.
    destruct (validate_token_and_roles (identity_service env) token read_roles)
      as [[]|code detail|e] eqn:Hv;
      [|unfold get_all_ingredients; rewrite Hv; reflexivity..].
    rewrite (get_all_ingredients_run _ _ _ Hv). reflexivity.
  - destruct (validate_token_and_roles (identity_service env) token write_roles)
      as [[]|code detail|e] eqn:Hv;
      [|left; unfold add_ingredient; rewrite Hv; reflexivity..].
    rewrite (add_ingredient_run _ _ _ _ Hv).
    destruct (fetchone (fst (Sql.select_1_by_name _ _))) eqn:Hfound;
      [left; reflexivity|].
    right. left. exists ingredient. split; [|reflexivity].
    apply fetchone_by_name_None. exact Hfound.
  - destruct (validate_token_and_roles (identity_service env) token write_roles)
      as [[]|code detail|e] eqn:Hv;
      [|left; unfold update_ingredient; rewrite Hv; reflexivity..].
    rewrite (update_ingredient_run _ _ _ _ _ Hv).
    destruct (fetchone (fst (Sql.select_1_by_name_except _ _ _))) eqn:Hfound;
      [left; reflexivity|].
    destruct (fetchone (fst (Sql.select_by_id _ _))); [|left; reflexivity].
    right. right. left. exists id, ingredient. split; [|reflexivity].
    apply fetchone_by_name_except_None. exact Hfound.
  - destruct (validate_token_and_roles (identity_service env) token write_roles)
      as [[]|code detail|e] eqn:Hv;
      [|left; unfold delete_ingredient; rewrite Hv; reflexivity..].
    rewrite (delete_ingredient_run _ _ _ _ Hv).
    destruct (_ =? 0); [left; reflexivity|].
    right. right. right. exists id. reflexivity.
Qed.

(** Every request keeps the table well formed and the stored statuses
    derived, as long as requests run one after the other. *)
Theorem invariants_preserved (env : Env) (r : request) (s : Server) :
  well_formed (persisted s) -> status_derived (persisted s) ->
  well_formed (persisted (serve env r s)) /\
  status_derived (persisted (serve env r s)).
Proof.
  intros Hwf Hst.
  destruct (serve_cases env r s)
    as [-> | [(ing & Hfree & ->) | [(id & ing & Hfree & ->) | (id & ->)]]].
  - split; assumption.
  - split.
    + apply well_formed_insert; [exact Hwf|reflexivity|exact Hfree].
    + unfold status_derived. simpl. apply Forall_app.
      split; [exact Hst|]. apply Forall_singleton. reflexivity.
  - split.
    + apply (well_formed_update _ (row_of_update id ing)); assumption.
    + apply (status_derived_update _ (row_of_update id ing));
        [exact Hst|reflexivity].
  - split; [apply well_formed_delete|apply status_derived_delete]; assumption.
Qed.

(** So both hold in every state reached from an empty table. *)
Theorem reachable_invariants (requests : list (Env * request)) (n : Z)
    (events : list db_event) :
  let s := serve_all requests (mkServer (mkDatabase [] n) events) in
  well_formed (persisted s) /\ status_derived (persisted s).
Proof.
  assert (Hgen : forall s0 : Server,
             well_formed (persisted s0) -> status_derived (persisted s0) ->
             well_formed (persisted (serve_all requests s0)) /\
             status_derived (persisted (serve_all requests s0))).
  { induction requests as [|[env r] rest IH]; intros s0 Hwf Hst.
    - split; assumption.
    - simpl. destruct (invariants_preserved env r s0 Hwf Hst) as [Hwf' Hst'].
      apply IH; assumption. }
  apply Hgen; [apply well_formed_empty|apply Forall_nil_2].
Qed.

(** ** Claims about the record manager *)

(** C2: whenever create or update writes a record, the stored [Status] is
    [get_status] of the amount and unit submitted in that same request, which
    are the amount and unit stored with it; the request types have no [Status]
    field. Create appends exactly that row; update leaves every row with
    another identifier as it was. *)
Theorem C2_status_recomputed_on_write (env : Env) (token : string) (s : Server) :
  (forall (ingredient : IngredientCreate.t) (out : IngredientOut.t)
          (s' : Server),
      add_ingredient env ingredient token s = (Return out, s') ->
      let status := get_status (IngredientCreate.Amount ingredient)
                      (Some (IngredientCreate.Measurement ingredient)) in
      IngredientOut.Status out = status /\
      exists row : Row.t,
        Ingredients (persisted s') = Ingredients (persisted s) ++ [row] /\
        Row.IngredientID row = IngredientOut.IngredientID out /\
        Row.Amount row = IngredientCreate.Amount ingredient /\
        Row.Unit row = IngredientCreate.Measurement ingredient /\
        Row.Status row = status) /\
  (forall (ingredient_id : Z) (ingredient : IngredientUpdate.t)
          (out : IngredientOut.t) (s' : Server),
      update_ingredient env ingredient_id ingredient token s = (Return out, s') ->
      let status := get_status (IngredientUpdate.Amount ingredient)
                      (Some (IngredientUpdate.Measurement ingredient)) in
      IngredientOut.Status out = status /\
      Forall (fun r =>
                (Row.IngredientID r = ingredient_id /\
                 Row.Amount r = IngredientUpdate.Amount ingredient /\
                 Row.Unit r = IngredientUpdate.Measurement ingredient /\
                 Row.Status r = status) \/
                (Row.IngredientID r <> ingredient_id /\
                 r ∈ Ingredients (persisted s)))
        (Ingredients (persisted s'))).
Proof.
  split.
  - intros ingredient out s' Hrun.
    destruct (validate_token_and_roles (identity_service env) token write_roles)
      as [[]|code detail|e] eqn:Hv;
      [|unfold add_ingredient, handle in Hrun; rewrite Hv in Hrun;
        discriminate..].
    rewrite (add_ingredient_run _ _ _ _ Hv) in Hrun.
    destruct (fetchone _); [discriminate|].
    simpl in Hrun. injection Hrun as <- <-. simpl.
    split; [reflexivity|]. eexists. split; [reflexivity|].
    simpl. repeat split; reflexivity.
  - intros ingredient_id ingredient out s' Hrun.
    destruct (validate_token_and_roles (identity_service env) token write_roles)
      as [[]|code detail|e] eqn:Hv;
      [|unfold update_ingredient, handle in Hrun; rewrite Hv in Hrun;
        discriminate..].
    rewrite (update_ingredient_run _ _ _ _ _ Hv) in Hrun.
    destruct (fetchone _); [discriminate|].
    destruct (fetchone _); [|discriminate].
    simpl in Hrun. injection Hrun as <- <-. simpl.
    split; [reflexivity|].
    apply Forall_forall. intros r Hr.
    apply list_elem_of_fmap in Hr as (r0 & -> & Hr0).
    destruct (Z.eqb_spec (Row.IngredientID r0) ingredient_id) as [Heq|Hne].
    + left. simpl. repeat split; reflexivity.
    + right. split; assumption.
Qed.

Lemma C2_status_recomputed_on_write_witness :
  (IngredientOut.Status
     (IngredientOut.mk 3 "flour" 2 "kg" Sample.day Sample.day "Available")
   = "Available" /\
   exists row : Row.t,
     Ingredients (persisted
       (snd (add_ingredient Sample.env Sample.flour_again "admin-token"
               (snd (delete_ingredient Sample.env 1 "admin-token"
                       Sample.stocked))))) =
     Ingredients (persisted
       (snd (delete_ingredient Sample.env 1 "admin-token" Sample.stocked)))
       ++ [row] /\
     Row.IngredientID row = 3 /\
     Row.Amount row = 2%float /\
     Row.Unit row = "kg" /\
     Row.Status row = "Available") /\
  (IngredientOut.Status
     (IngredientOut.mk 1 "Flour" 900 "G" Sample.day Sample.day "Available")
   = "Available" /\
   Forall (fun r =>
             (Row.IngredientID r = 1 /\
              Row.Amount r = 900%float /\
              Row.Unit r = "G" /\
              Row.Status r = "Available") \/
             (Row.IngredientID r <> 1 /\
              r ∈ Ingredients (persisted Sample.stocked)))
     (Ingredients (persisted
        (snd (update_ingredient Sample.env 1 Sample.flour_refill "admin-token"
                Sample.stocked))))).
Proof.
  split.
  - apply (proj1 (C2_status_recomputed_on_write Sample.env "admin-token"
                    (snd (delete_ingredient Sample.env 1 "admin-token"
                            Sample.stocked)))
             Sample.flour_again).
    reflexivity.
  - apply (proj2 (C2_status_recomputed_on_write Sample.env "admin-token"
                    Sample.stocked)
             1 Sample.flour_refill).
    reflexivity.
Defined.



Lemma has_id_fetchone (id : Z) (db : Database) :
  has_id id db <-> is_Some (fetchone (fst (Sql.select_by_id id db))).
Proof.
  split.
  - intros Hhas. destruct (fetchone _) eqn:Hf; [eexists; reflexivity|].
    apply fetchone_by_id_None in Hf. contradiction.
  - intros [r Hr]. exact (fetchone_by_id_Some _ _ _ Hr).
Qed.

(** The UPDATE does not change which identifiers are in the table. *)
Lemma has_id_after_update (name : string) (amount : float)
    (measurement : string) (best_before expiration : date) (status : string)
    (id : Z) (db : Database) :
  has_id id (snd (Sql.update name amount measurement best_before expiration
                    status id db)) <-> has_id id db.
Proof.
  rewrite !has_id_fetchone, fetchone_after_update.
  destruct (fetchone (fst (Sql.select_by_id id db))); split;
    intros [x Hx]; (discriminate || eexists; reflexivity).
Qed.

Lemma names_unique_no_other (db : Database) (r : Row.t) :
  names_unique db -> r ∈ Ingredients db ->
  ~ has_name_except (Row.IngredientName r) (Row.IngredientID r) db.
Proof.
  intros Huniq Hr (r' & Hr' & Hm & Hid). apply Hid.
  exact (Huniq r' r Hr' Hr Hm).
Qed.

(** C4: an update of [ingredient_id] ends with 409 Conflict when a row with
    another identifier matches the submitted name under the collation; with
    no such row it rewrites every field of the row [ingredient_id] with the
    submitted values and the recomputed status and returns that record, or
    ends with 404 Not Found when the identifier is not in the table after the
    UPDATE; in a table with unique names, updating a record under its own
    current name succeeds. *)
Theorem C4_update_conflict_or_overwrite (env : Env) (ingredient_id : Z)
    (ingredient : IngredientUpdate.t) (token : string) (s : Server) :
  validate_token_and_roles (identity_service env) token write_roles = Return tt ->
  let name := IngredientUpdate.IngredientName ingredient in
  let status := get_status (IngredientUpdate.Amount ingredient)
                  (Some (IngredientUpdate.Measurement ingredient)) in
  let written :=
    snd (Sql.update name (IngredientUpdate.Amount ingredient)
           (IngredientUpdate.Measurement ingredient)
           (IngredientUpdate.BestBeforeDate ingredient)
           (IngredientUpdate.ExpirationDate ingredient)
           status ingredient_id (persisted s)) in
  let record :=
    IngredientOut.mk ingredient_id name
      (IngredientUpdate.Amount ingredient)
      (IngredientUpdate.Measurement ingredient)
      (IngredientUpdate.BestBeforeDate ingredient)
      (IngredientUpdate.ExpirationDate ingredient) status in
  let updated := update_ingredient env ingredient_id ingredient token s in
  (has_name_except name ingredient_id (persisted s) ->
     fst updated =
       HTTPException HTTP_409_CONFLICT "Ingredient name already exists." /\
     persisted (snd updated) = persisted s) /\
  (~ has_name_except name ingredient_id (persisted s) ->
     has_id ingredient_id written ->
     fst updated = Return record /\
     http_status HTTP_200_OK (fst updated) = 200 /\
     Ingredients (persisted (snd updated)) =
       map (fun r =>
              if Row.IngredientID r =? ingredient_id
              then Row.mk ingredient_id name
                     (IngredientUpdate.Amount ingredient)
                     (IngredientUpdate.Measurement ingredient)
                     (IngredientUpdate.BestBeforeDate ingredient)
                     (IngredientUpdate.ExpirationDate ingredient) status
              else r)
         (Ingredients (persisted s))) /\
  (~ has_name_except name ingredient_id (persisted s) ->
     ~ has_id ingredient_id written ->
     fst updated =
       HTTPException HTTP_404_NOT_FOUND "Ingredient not found" /\
     persisted (snd updated) = persisted s) /\
  (names_unique (persisted s) ->
   forall r : Row.t,
     r ∈ Ingredients (persisted s) ->
     Row.IngredientID r = ingredient_id ->
     Row.IngredientName r = name ->
     fst updated = Return record).
Proof.
  intros Hv name status written record updated.
  assert (Hok : ~ has_name_except name ingredient_id (persisted s) ->
                has_id ingredient_id (persisted s) ->
                updated =
                  (Return record,
                   {| persisted :=
                        {| Ingredients :=
                             map (fun r =>
                                    if Row.IngredientID r =? ingredient_id
                                    then row_of_update ingredient_id ingredient
                                    else r)
                               (Ingredients (persisted s));
                           next_identity := next_identity (persisted s) |};
                      trace := trace s ++ [EvConnect; EvExecute; EvExecute;
                                           EvExecute; EvCommit; EvClose] |})).
  { intros Hfree Hid. unfold updated.
    rewrite (update_ingredient_run _ _ _ _ _ Hv).
    apply fetchone_by_name_except_None in Hfree. unfold name in Hfree.
    rewrite Hfree. apply has_id_fetchone in Hid as [r0 Hr0].
    rewrite Hr0. reflexivity. }
  split; [|split; [|split]].
  - intros Hclash. unfold updated.
    rewrite (update_ingredient_run _ _ _ _ _ Hv).
    destruct (fetchone _) eqn:Hfound; [split; reflexivity|].
    apply fetchone_by_name_except_None in Hfound. contradiction.
  - intros Hfree Hid. apply has_id_after_update in Hid.
    rewrite (Hok Hfree Hid). repeat split; reflexivity.
  - intros Hfree Hid. unfold updated.
    rewrite (update_ingredient_run _ _ _ _ _ Hv).
    apply fetchone_by_name_except_None in Hfree. unfold name in Hfree.
    rewrite Hfree.
    assert (Hnone : fetchone (fst (Sql.select_by_id ingredient_id
                                     (persisted s))) = None).
    { apply fetchone_by_id_None. intros Hhas. apply Hid.
      apply has_id_after_update. exact Hhas. }
    rewrite Hnone. split; reflexivity.
  - intros Huniq r Hr Hrid Hrname.
    assert (Hfree : ~ has_name_except name ingredient_id (persisted s)).
    { rewrite <- Hrname, <- Hrid. apply names_unique_no_other; assumption. }
    rewrite (Hok Hfree); [reflexivity|].
    exists r. split; assumption.
Qed.

Lemma stocked_rows :
  Ingredients (persisted Sample.stocked) =
    [Row.mk 1 "Flour" 30 "g" Sample.day Sample.day "Low Stock";
     Row.mk 2 "Sugar" 0.3 "kg" Sample.day Sample.day "Low Stock"].
Proof. reflexivity. Qed.

(** The sample table is reached from the empty one, so its names are
    unique. *)
Lemma stocked_names_unique : names_unique (persisted Sample.stocked).
Proof.
  exact (proj2 (proj1 (reachable_invariants
                         [(Sample.env, Add Sample.flour "admin-token");
                          (Sample.env, Add Sample.sugar "admin-token")]
                         1 []))).
Qed.

Lemma C4_update_conflict_or_overwrite_witness :
  (fst (update_ingredient Sample.env 2 Sample.sugar_as_flour "admin-token"
          Sample.stocked) =
     HTTPException 409 "Ingredient name already exists." /\
   persisted (snd (update_ingredient Sample.env 2 Sample.sugar_as_flour
                     "admin-token" Sample.stocked)) =
     persisted Sample.stocked) /\
  (fst (update_ingredient Sample.env 1 Sample.flour_refill "admin-token"
          Sample.stocked) =
     Return (IngredientOut.mk 1 "Flour" 900 "G" Sample.day Sample.day
               "Available") /\
   http_status HTTP_200_OK
     (fst (update_ingredient Sample.env 1 Sample.flour_refill "admin-token"
             Sample.stocked)) = 200 /\
   Ingredients (persisted (snd (update_ingredient Sample.env 1
                                  Sample.flour_refill "admin-token"
                                  Sample.stocked))) =
     [Row.mk 1 "Flour" 900 "G" Sample.day Sample.day "Available";
      Row.mk 2 "Sugar" 0.3 "kg" Sample.day Sample.day "Low Stock"]) /\
  (fst (update_ingredient Sample.env 7 Sample.salt "admin-token"
          Sample.stocked) =
     HTTPException 404 "Ingredient not found" /\
   persisted (snd (update_ingredient Sample.env 7 Sample.salt "admin-token"
                     Sample.stocked)) = persisted Sample.stocked) /\
  fst (update_ingredient Sample.env 1 Sample.flour_refill "admin-token"
         Sample.stocked) =
    Return (IngredientOut.mk 1 "Flour" 900 "G" Sample.day Sample.day
              "Available").
Proof.
  split; [|split; [|split]].
  - apply (C4_update_conflict_or_overwrite Sample.env 2 Sample.sugar_as_flour
             "admin-token" Sample.stocked); [reflexivity|].
    exists (Row.mk 1 "Flour" 30 "g" Sample.day Sample.day "Low Stock").
    split; [left|split; [reflexivity|discriminate]].
  - apply (C4_update_conflict_or_overwrite Sample.env 1 Sample.flour_refill
             "admin-token" Sample.stocked); [reflexivity| |].
    + intros (r & Hr & Hm & Hid). rewrite stocked_rows in Hr.
      list_cases Hr; [apply Hid; reflexivity|discriminate Hm].
    + exists (Row.mk 1 "Flour" 900 "G" Sample.day Sample.day "Available").
      split; [left|reflexivity].
  - apply (C4_update_conflict_or_overwrite Sample.env 7 Sample.salt
             "admin-token" Sample.stocked); [reflexivity| |].
    + intros (r & Hr & Hm & Hid). rewrite stocked_rows in Hr.
      list_cases Hr; discriminate Hm.
    + intros (r & Hr & Hid).
      list_cases Hr; discriminate Hid.
  - destruct (C4_update_conflict_or_overwrite Sample.env 1 Sample.flour_refill
                "admin-token" Sample.stocked eq_refl) as (_ & _ & _ & Hself).
    apply (Hself stocked_names_unique
             (Row.mk 1 "Flour" 30 "g" Sample.day Sample.day "Low Stock"));
      [left|reflexivity|reflexivity].
Defined.



(** ** Claims about the token validator *)

(** The role is allowed: it is a string and one of [roles]. *)
Lemma py_in_spec (v : pyval) (roles : list string) :
  py_in v roles = true <-> exists s : string, v = PyStr s /\ s ∈ roles.
Proof.
  destruct v as [|s|shown]; simpl.
  - split; [discriminate|]. intros (s & Hs & _). discriminate.
  - rewrite bool_decide_eq_true. split.
    + intros Hin. exists s. split; [reflexivity|exact Hin].
    + intros (s' & Hs & Hin). injection Hs as ->. exact Hin.
  - split; [discriminate|]. intros (s & Hs & _). discriminate.
Qed.

(** C6: when the identity service answers with a status outside 2xx, the
    validator raises [HTTPException] with that same status code and a detail
    that starts with "Ingredients Auth service error: " and the code; when the
    request itself fails (connection failure, timeout, any
    [httpx.RequestError]), it raises [HTTPException] with status 503, which is
    not 500. *)
Theorem C6_upstream_status_and_unavailable
    (identity_service : string -> Httpx.reply) (token : string)
    (allowed_roles : list string) :
  (forall response : Httpx.Response,
     identity_service token = Httpx.Responded response ->
     Httpx.is_success response = false ->
     let told :=
       match Httpx.json response with
       | Httpx.JsonObject fields =>
           py_str (dict_get fields "detail" (PyStr (Httpx.text response)))
       | Httpx.NotJson | Httpx.JsonOther => Httpx.text response
       end in
     validate_token_and_roles identity_service token allowed_roles =
       HTTPException (Httpx.status_code response)
         ("Ingredients Auth service error: "
            +:+ pretty (Httpx.status_code response) +:+ " - " +:+ told)) /\
  (forall (e : Httpx.RequestError) (message : string),
     identity_service token = Httpx.Failed e message ->
     validate_token_and_roles identity_service token allowed_roles =
       HTTPException HTTP_503_SERVICE_UNAVAILABLE
         ("Ingredients Auth service unavailable: " +:+ message) /\
     forall success : Z,
       http_status success
         (validate_token_and_roles identity_service token allowed_roles)
       = 503 /\
       http_status success
         (validate_token_and_roles identity_service token allowed_roles)
       <> HTTP_500_INTERNAL_SERVER_ERROR).
Proof.
  split.
  - intros response Hreply Hfail told.
    unfold validate_token_and_roles. rewrite Hreply, Hfail. simpl.
    unfold error_detail, told.
    destruct (Httpx.json response) as [|fields|]; reflexivity.
  - intros e message Hreply.
    unfold validate_token_and_roles. rewrite Hreply.
    split; [reflexivity|]. intros success. simpl.
    split; [reflexivity|discriminate].
Qed.

Lemma C6_upstream_status_and_unavailable_witness :
  validate_token_and_roles Sample.identity "expired-token" write_roles =
    HTTPException 401
      "Ingredients Auth service error: 401 - Could not validate credentials" /\
  validate_token_and_roles Sample.identity "slow-token" write_roles =
    HTTPException 503 "Ingredients Auth service unavailable: timed out" /\
  http_status HTTP_200_OK
    (validate_token_and_roles Sample.identity "slow-token" write_roles)
    <> HTTP_500_INTERNAL_SERVER_ERROR.
Proof.
  split; [|split].
  - exact (proj1 (C6_upstream_status_and_unavailable Sample.identity
                    "expired-token" write_roles)
             (Httpx.mkResponse 401 "Unauthorized"
                (Httpx.JsonObject
                   {["detail" := PyStr "Could not validate credentials"]}))
             eq_refl eq_refl).
  - apply (proj2 (C6_upstream_status_and_unavailable Sample.identity
                    "slow-token" write_roles)
             Httpx.ConnectTimeout "timed out").
    reflexivity.
  - apply (proj2 (C6_upstream_status_and_unavailable Sample.identity
                    "slow-token" write_roles)
             Httpx.ConnectTimeout "timed out" eq_refl).
Defined.

(** C7: when the identity service answers 2xx with a JSON object, a role
    that is not one of [allowed_roles] makes the validator raise
    [HTTPException] 403 with a detail that quotes the role the user has; a
    role that is one of them makes it return [None]. *)
Theorem C7_forbidden_names_role (identity_service : string -> Httpx.reply)
    (token : string) (allowed_roles : list string)
    (response : Httpx.Response) (user_data : gmap string pyval) :
  identity_service token = Httpx.Responded response ->
  Httpx.is_success response = true ->
  Httpx.json response = Httpx.JsonObject user_data ->
  let user_role := dict_get user_data "userRole" PyNone in
  ((~ exists role : string, user_role = PyStr role /\ role ∈ allowed_roles) ->
   validate_token_and_roles identity_service token allowed_roles =
     HTTPException HTTP_403_FORBIDDEN
       ("Access denied. Required role not met. User has role: '"
          +:+ py_str user_role +:+ "'") /\
   http_status HTTP_200_OK
     (validate_token_and_roles identity_service token allowed_roles) = 403) /\
  (forall role : string,
     user_role = PyStr role -> role ∈ allowed_roles ->
     validate_token_and_roles identity_service token allowed_roles = Return tt).
Proof.
  intros Hreply Hok Hjson user_role.
  unfold validate_token_and_roles. rewrite Hreply, Hok, Hjson. simpl.
  fold user_role. split.
  - intros Hnot. destruct (py_in user_role allowed_roles) eqn:Hin.
    + exfalso. apply Hnot, py_in_spec, Hin.
    + split; reflexivity.
  - intros role Hrole Hin.
    replace (py_in user_role allowed_roles) with true; [reflexivity|].
    symmetry. apply py_in_spec. exists role. split; assumption.
Qed.

Lemma C7_forbidden_names_role_witness :
  (validate_token_and_roles Sample.identity "cashier-token" write_roles =
     HTTPException 403
       "Access denied. Required role not met. User has role: 'cashier'" /\
   http_status HTTP_200_OK
     (validate_token_and_roles Sample.identity "cashier-token" write_roles)
     = 403) /\
  validate_token_and_roles Sample.identity "cashier-token" read_roles =
    Return tt.
Proof.
  split.
  - apply (C7_forbidden_names_role Sample.identity "cashier-token" write_roles
             (Httpx.mkResponse 200 ""
                (Httpx.JsonObject {["userRole" := PyStr "cashier"]}))
             {["userRole" := PyStr "cashier"]} eq_refl eq_refl eq_refl).
    intros (role & Hrole & Hin). vm_compute in Hrole. injection Hrole as <-.
    unfold write_roles in Hin.
    repeat (apply elem_of_cons in Hin as [Heq|Hin]; [discriminate Heq|]).
    inversion Hin.
  - apply (proj2 (C7_forbidden_names_role Sample.identity "cashier-token"
                    read_roles
                    (Httpx.mkResponse 200 ""
                       (Httpx.JsonObject {["userRole" := PyStr "cashier"]}))
                    {["userRole" := PyStr "cashier"]} eq_refl eq_refl eq_refl)
             "cashier"); [reflexivity|].
    unfold read_roles. do 3 right. left.
Defined.

Lemma validate_has_role (identity_service : string -> Httpx.reply)
    (token : string) (role : pyval) (allowed_roles : list string) :
  has_role identity_service token role ->
  validate_token_and_roles identity_service token allowed_roles =
    if py_in role allowed_roles then Return tt
    else HTTPException HTTP_403_FORBIDDEN
           ("Access denied. Required role not met. User has role: '"
              +:+ py_str role +:+ "'").
Proof.
  intros (response & user_data & Hreply & Hok & Hjson & Hrole).
  unfold validate_token_and_roles. rewrite Hreply, Hok, Hjson. simpl.
  rewrite Hrole. destruct (py_in role allowed_roles); reflexivity.
Qed.

(** C8: each endpoint calls the validator before it opens a connection, the
    list endpoint with admin/manager/staff/cashier and create, update and
    delete with admin/manager/staff: when the validator raises, the endpoint
    raises the same and the server, database trace included, is untouched, and
    otherwise the first database event is the connection. A cashier can list
    the ingredients, and every write of a cashier ends with 403 Forbidden. *)
Theorem C8_validator_before_database (env : Env) (token : string) (s : Server) :
  let read := validate_token_and_roles (identity_service env) token read_roles in
  let write :=
    validate_token_and_roles (identity_service env) token write_roles in
  read_roles = ["admin"; "manager"; "staff"; "cashier"] /\
  write_roles = ["admin"; "manager"; "staff"] /\
  validated_first read (get_all_ingredients env token) s /\
  (forall ingredient : IngredientCreate.t,
     validated_first write (add_ingredient env ingredient token) s) /\
  (forall (ingredient_id : Z) (ingredient : IngredientUpdate.t),
     validated_first write
       (update_ingredient env ingredient_id ingredient token) s) /\
  (forall ingredient_id : Z,
     validated_first write (delete_ingredient env ingredient_id token) s) /\
  (has_role (identity_service env) token (PyStr "cashier") ->
   let forbidden {A : Type} : outcome A :=
     HTTPException HTTP_403_FORBIDDEN
       "Access denied. Required role not met. User has role: 'cashier'" in
   fst (get_all_ingredients env token s) =
     Return (map out_of_row (Ingredients (persisted s))) /\
   (forall ingredient : IngredientCreate.t,
      add_ingredient env ingredient token s = (forbidden, s)) /\
   (forall (ingredient_id : Z) (ingredient : IngredientUpdate.t),
      update_ingredient env ingredient_id ingredient token s = (forbidden, s)) /\
   (forall ingredient_id : Z,
      delete_ingredient env ingredient_id token s = (forbidden, s))).
Proof.
  intros read write. unfold read, write, validated_first.
  split; [reflexivity|]. split; [reflexivity|].
  split; [|split; [|split; [|split]]].
  - destruct (validate_token_and_roles _ _ read_roles) as [[]|code detail|e]
      eqn:Hv; [|unfold get_all_ingredients; rewrite Hv; reflexivity..].
    rewrite (get_all_ingredients_run _ _ _ Hv). eexists. reflexivity.
  - intros ingredient.
    destruct (validate_token_and_roles _ _ write_roles) as [[]|code detail|e]
      eqn:Hv; [|unfold add_ingredient; rewrite Hv; reflexivity..].
    rewrite (add_ingredient_run _ _ _ _ Hv).
    destruct (fetchone _); eexists; reflexivity.
  - intros ingredient_id ingredient.
    destruct (validate_token_and_roles _ _ write_roles) as [[]|code detail|e]
      eqn:Hv; [|unfold update_ingredient; rewrite Hv; reflexivity..].
    rewrite (update_ingredient_run _ _ _ _ _ Hv).
    destruct (fetchone _); [|destruct (fetchone _)]; eexists; reflexivity.
  - intros ingredient_id.
    destruct (validate_token_and_roles _ _ write_roles) as [[]|code detail|e]
      eqn:Hv; [|unfold delete_ingredient; rewrite Hv; reflexivity..].
    rewrite (delete_ingredient_run _ _ _ _ Hv).
    destruct (_ =? 0); eexists; reflexivity.
  - intros Hrole.
    pose proof (validate_has_role _ _ _ read_roles Hrole) as Hread.
    pose proof (validate_has_role _ _ _ write_roles Hrole) as Hwrite.
    change (py_in (PyStr "cashier") read_roles) with true in Hread.
    change (py_in (PyStr "cashier") write_roles) with false in Hwrite.
    split; [rewrite (get_all_ingredients_run _ _ _ Hread); reflexivity|].
    split; [|split].
    + intros ingredient. unfold add_ingredient. rewrite Hwrite. reflexivity.
    + intros ingredient_id ingredient. unfold update_ingredient.
      rewrite Hwrite. reflexivity.
    + intros ingredient_id. unfold delete_ingredient.
      rewrite Hwrite. reflexivity.
Qed.

Lemma cashier_has_role :
  has_role (identity_service Sample.env) "cashier-token" (PyStr "cashier").
Proof.
  exists (Httpx.mkResponse 200 ""
            (Httpx.JsonObject {["userRole" := PyStr "cashier"]})).
  exists {["userRole" := PyStr "cashier"]}.
  repeat split; reflexivity.
Qed.

Lemma C8_validator_before_database_witness :
  fst (get_all_ingredients Sample.env "cashier-token" Sample.stocked) =
    Return [IngredientOut.mk 1 "Flour" 30 "g" Sample.day Sample.day
              "Low Stock";
            IngredientOut.mk 2 "Sugar" 0.3 "kg" Sample.day Sample.day
              "Low Stock"] /\
  add_ingredient Sample.env Sample.flour "cashier-token" Sample.stocked =
    (HTTPException 403
       "Access denied. Required role not met. User has role: 'cashier'",
     Sample.stocked) /\
  update_ingredient Sample.env 1 Sample.flour_refill "cashier-token"
    Sample.stocked =
    (HTTPException 403
       "Access denied. Required role not met. User has role: 'cashier'",
     Sample.stocked) /\
  delete_ingredient Sample.env 1 "cashier-token" Sample.stocked =
    (HTTPException 403
       "Access denied. Required role not met. User has role: 'cashier'",
     Sample.stocked).
Proof.
  destruct (C8_validator_before_database Sample.env "cashier-token"
              Sample.stocked)
    as (_ & _ & _ & _ & _ & _ & Hcashier).
  destruct (Hcashier cashier_has_role) as (Hlist & Hadd & Hupdate & Hdelete).
  split; [exact Hlist|].
  split; [exact (Hadd Sample.flour)|].
  split; [exact (Hupdate 1 Sample.flour_refill)|exact (Hdelete 1)].
Defined.

(** C9: an update that ends with [HTTPException] (409 Conflict and 404 Not
    Found among them) has issued no commit and leaves the committed table as
    it was, whether or not the connection commits by itself; the same holds
    for a create that ends with [HTTPException], 409 Conflict included, which
    is raised before the INSERT. *)
Theorem C9_failed_write_changes_nothing (env : Env) (token : string)
    (s : Server) :
  (forall (ingredient_id : Z) (ingredient : IngredientUpdate.t)
          (code : Z) (detail : string) (s' : Server),
     update_ingredient env ingredient_id ingredient token s =
       (HTTPException code detail, s') ->
     persisted s' = persisted s /\
     exists later : list db_event,
       trace s' = trace s ++ later /\ (EvCommit ∉ later)) /\
  (forall (ingredient : IngredientCreate.t)
          (code : Z) (detail : string) (s' : Server),
     add_ingredient env ingredient token s = (HTTPException code detail, s') ->
     persisted s' = persisted s /\
     exists later : list db_event,
       trace s' = trace s ++ later /\ (EvCommit ∉ later) /\
       (later = [] \/ later = [EvConnect; EvExecute; EvClose])).
Proof.
  assert (Hno : forall l : list db_event,
             Forall (fun ev => ev <> EvCommit) l -> EvCommit ∉ l).
  { intros l Hall Hin. rewrite Forall_forall in Hall.
    exact (Hall _ Hin eq_refl). }
  split.
  - intros ingredient_id ingredient code detail s' Hrun.
    destruct (validate_token_and_roles (identity_service env) token write_roles)
      as [[]|code' detail'|e] eqn:Hv.
    + rewrite (update_ingredient_run _ _ _ _ _ Hv) in Hrun.
      destruct (fetchone _); [|destruct (fetchone _); [discriminate|]];
        injection Hrun as <- <- <-; (split; [reflexivity|]);
        eexists; (split; [reflexivity|]);
        apply Hno; repeat constructor; discriminate.
    + unfold update_ingredient, handle in Hrun. rewrite Hv in Hrun.
      injection Hrun as <- <- <-. split; [reflexivity|].
      exists []. rewrite app_nil_r. split; [reflexivity|apply not_elem_of_nil].
    + unfold update_ingredient, handle in Hrun. rewrite Hv in Hrun.
      discriminate.
  - intros ingredient code detail s' Hrun.
    destruct (validate_token_and_roles (identity_service env) token write_roles)
      as [[]|code' detail'|e] eqn:Hv.
    + rewrite (add_ingredient_run _ _ _ _ Hv) in Hrun.
      destruct (fetchone _); [|discriminate].
      injection Hrun as <- <- <-. split; [reflexivity|].
      eexists. split; [reflexivity|]. split; [|right; reflexivity].
      apply Hno; repeat constructor; discriminate.
    + unfold add_ingredient, handle in Hrun. rewrite Hv in Hrun.
      injection Hrun as <- <- <-. split; [reflexivity|].
      exists []. rewrite app_nil_r.
      split; [reflexivity|]. split; [apply not_elem_of_nil|left; reflexivity].
    + unfold add_ingredient, handle in Hrun. rewrite Hv in Hrun.
      discriminate.
Qed.

Lemma C9_failed_write_changes_nothing_witness :
  (persisted (snd (update_ingredient Sample.env 7 Sample.salt "admin-token"
                     Sample.stocked)) = persisted Sample.stocked /\
   exists later : list db_event,
     trace (snd (update_ingredient Sample.env 7 Sample.salt "admin-token"
                   Sample.stocked)) = trace Sample.stocked ++ later /\
     (EvCommit ∉ later)) /\
  (persisted (snd (add_ingredient Sample.env Sample.flour_again "admin-token"
                     Sample.stocked)) = persisted Sample.stocked /\
   exists later : list db_event,
     trace (snd (add_ingredient Sample.env Sample.flour_again "admin-token"
                   Sample.stocked)) = trace Sample.stocked ++ later /\
     (EvCommit ∉ later) /\
     (later = [] \/ later = [EvConnect; EvExecute; EvClose])).
Proof.
  destruct (C9_failed_write_changes_nothing Sample.env "admin-token"
              Sample.stocked) as [Hupdate Hcreate].
  split.
  - apply (Hupdate 7 Sample.salt 404 "Ingredient not found"). reflexivity.
  - apply (Hcreate Sample.flour_again 409 "Ingredient name already exists.").
    reflexivity.
Defined.

(** C10: when the identity service answers 2xx with a JSON object in which
    the role entry is missing or null, the role reads as [None], which is in
    no list of role names: the validator raises [HTTPException] 403 whose
    detail quotes 'None', and no other exception escapes. [get_status] reads a
    [None] unit as the empty string, for which the threshold is the default
    1. *)
Theorem C10_missing_role_and_unit :
  (forall (identity_service : string -> Httpx.reply) (token : string)
          (allowed_roles : list string) (response : Httpx.Response)
          (user_data : gmap string pyval),
     identity_service token = Httpx.Responded response ->
     Httpx.is_success response = true ->
     Httpx.json response = Httpx.JsonObject user_data ->
     user_data !! "userRole" = None \/ user_data !! "userRole" = Some PyNone ->
     validate_token_and_roles identity_service token allowed_roles =
       HTTPException HTTP_403_FORBIDDEN
         "Access denied. Required role not met. User has role: 'None'" /\
     http_status HTTP_200_OK
       (validate_token_and_roles identity_service token allowed_roles) = 403) /\
  (forall amount : float,
     get_status amount None = get_status amount (Some "") /\
     get_status amount None =
       if (amount <=? 0)%float then "Not Available"
       else if (amount <=? 1)%float then "Low Stock"
       else "Available").
Proof.
  split.
  - intros identity_service token allowed_roles response user_data
      Hreply Hok Hjson Hrole.
    unfold validate_token_and_roles. rewrite Hreply, Hok, Hjson. simpl.
    assert (Hnone : dict_get user_data "userRole" PyNone = PyNone).
    { unfold dict_get. destruct Hrole as [-> | ->]; reflexivity. }
    rewrite Hnone. split; reflexivity.
  - intros amount. split; reflexivity.
Qed.

Lemma C10_missing_role_and_unit_witness :
  validate_token_and_roles Sample.identity "no-role-token" read_roles =
    HTTPException 403
      "Access denied. Required role not met. User has role: 'None'" /\
  validate_token_and_roles Sample.identity "null-role-token" read_roles =
    HTTPException 403
      "Access denied. Required role not met. User has role: 'None'".
Proof.
  split.
  - apply (proj1 C10_missing_role_and_unit Sample.identity "no-role-token"
             read_roles (Httpx.mkResponse 200 "" (Httpx.JsonObject ∅)) ∅
             eq_refl eq_refl eq_refl).
    left. reflexivity.
  - apply (proj1 C10_missing_role_and_unit Sample.identity "null-role-token"
             read_roles
             (Httpx.mkResponse 200 ""
                (Httpx.JsonObject {["userRole" := PyNone]}))
             {["userRole" := PyNone]} eq_refl eq_refl eq_refl).
    right. reflexivity.
Defined.

(** * Further properties of the code *)

(** ** The classifier on the whole float range *)

Lemma SFleb_trans (a b c : spec_float) :
  SFleb a b = true -> SFleb b c = true -> SFleb a c = true.
Proof.
  unfold SFleb, SFcompare.
  destruct a as [sa|sa| |sa ma ea], b as [sb|sb| |sb mb eb],
    c as [sc|sc| |sc mc ec];
    try discriminate; try reflexivity;
    repeat match goal with s : bool |- _ => destruct s end;
    try discriminate; try reflexivity;
    change (Pos.compare_cont Eq) with Pos.compare;
    destruct (Z.compare_spec ea eb), (Z.compare_spec eb ec),
      (Z.compare_spec ea ec);
    try discriminate; try reflexivity; try lia;
    destruct (Pos.compare_spec ma mb), (Pos.compare_spec mb mc),
      (Pos.compare_spec ma mc);
    simpl; try discriminate; try reflexivity; try lia.
Qed.

(** [<=] on binary64 floats is transitive (it is false on NaN). *)
Lemma float_leb_trans (x y z : float) :
  (x <=? y)%float = true -> (y <=? z)%float = true -> (x <=? z)%float = true.
Proof. rewrite !leb_spec. apply SFleb_trans. Qed.

(** X1: the label never gets worse when the amount grows: for one unit, if
    [a <= b] as floats then the label of [a] ranks at most the label of [b]
    in the order Not Available, Low Stock, Available. *)
Theorem X1_get_status_monotone (a b : float) (measurement : option string) :
  (a <=? b)%float = true ->
  label_rank (get_status a measurement) <= label_rank (get_status b measurement).
Proof.
  intros Hab. unfold get_status.
  set (t := dict_get thresholds (Str.lower (Str.or_empty measurement)) 1%float).
  destruct (b <=? 0)%float eqn:Hb0.
  - rewrite (float_leb_trans _ _ _ Hab Hb0). reflexivity.
  - destruct (b <=? t)%float eqn:Hbt.
    + destruct (a <=? 0)%float; [discriminate|].
      rewrite (float_leb_trans _ _ _ Hab Hbt). reflexivity.
    + destruct (a <=? 0)%float; [discriminate|].
      destruct (a <=? t)%float; discriminate.
Qed.

Lemma X1_get_status_monotone_witness :
  label_rank (get_status 0.3 (Some "kg")) <=
  label_rank (get_status 30 (Some "kg")).
Proof.
  apply (X1_get_status_monotone 0.3 30 (Some "kg")). reflexivity.
Defined.

(** X2: an amount that is not a number is never reported as missing stock:
    for every unit, NaN is labelled "Available", as is plus infinity, while
    minus infinity and minus zero are labelled "Not Available". *)
Theorem X2_get_status_special_amounts (measurement : option string) :
  get_status nan measurement = "Available" /\
  get_status infinity measurement = "Available" /\
  get_status neg_infinity measurement = "Not Available" /\
  get_status (-0)%float measurement = "Not Available".
Proof.
  unfold get_status. rewrite thresholds_get.
  destruct (String.eqb _ "g"); [repeat split; reflexivity|].
  destruct (String.eqb _ "kg"); [repeat split; reflexivity|].
  destruct (String.eqb _ "ml"); [repeat split; reflexivity|].
  destruct (String.eqb _ "l"); repeat split; reflexivity.
Qed.

(** ** The validator *)

Lemma admin_has_role :
  has_role Sample.identity "admin-token" (PyStr "admin").
Proof.
  exists (Httpx.mkResponse 200 ""
            (Httpx.JsonObject {["userRole" := PyStr "admin"]})).
  exists {["userRole" := PyStr "admin"]}.
  repeat split; reflexivity.
Qed.

(** X3: the validator returns exactly when the identity service answers 2xx
    with a JSON object whose [userRole] is a string of [allowed_roles]; the
    spelling must agree letter for letter. *)
Theorem X3_validator_returns_iff (identity_service : string -> Httpx.reply)
    (token : string) (allowed_roles : list string) :
  validate_token_and_roles identity_service token allowed_roles = Return tt <->
  exists role : string,
    has_role identity_service token (PyStr role) /\ role ∈ allowed_roles.
Proof.
  split.
  - unfold validate_token_and_roles.
    destruct (identity_service token) as [response|e message] eqn:Hreply;
      [|discriminate].
    destruct (Httpx.is_success response) eqn:Hok; [|discriminate]. simpl.
    destruct (Httpx.json response) as [|user_data|] eqn:Hjson;
      [discriminate| |discriminate].
    destruct (py_in _ allowed_roles) eqn:Hin; [|discriminate].
    intros _. apply py_in_spec in Hin as (role & Hrole & Hmem).
    exists role. split; [|exact Hmem].
    exists response, user_data. repeat split; assumption.
  - intros (role & Hrole & Hmem).
    rewrite (validate_has_role _ _ _ allowed_roles Hrole).
    replace (py_in (PyStr role) allowed_roles) with true; [reflexivity|].
    symmetry. apply py_in_spec. exists role. split; [reflexivity|exact Hmem].
Qed.

Lemma X3_validator_returns_iff_witness :
  validate_token_and_roles Sample.identity "admin-token" write_roles = Return tt.
Proof.
  apply (proj2 (X3_validator_returns_iff Sample.identity "admin-token"
                  write_roles)).
  exists "admin". split; [exact admin_has_role|left].
Defined.

(** X4: widening the list of allowed roles never turns an accepted caller
    away; since the write roles are among the read roles, whoever may create,
    update or delete may also list. *)
Theorem X4_validator_monotone (identity_service : string -> Httpx.reply)
    (token : string) (narrow wide : list string) :
  (forall role : string, role ∈ narrow -> role ∈ wide) ->
  validate_token_and_roles identity_service token narrow = Return tt ->
  validate_token_and_roles identity_service token wide = Return tt.
Proof.
  intros Hsub. unfold validate_token_and_roles.
  destruct (identity_service token) as [response|e message]; [|discriminate].
  destruct (Httpx.is_success response); [|discriminate]. simpl.
  destruct (Httpx.json response) as [|user_data|];
    [discriminate| |discriminate].
  destruct (py_in _ narrow) eqn:Hin; [|discriminate]. intros _.
  apply py_in_spec in Hin as (role & Hrole & Hmem).
  replace (py_in _ wide) with true; [reflexivity|].
  symmetry. apply py_in_spec. exists role.
  split; [exact Hrole|apply Hsub; exact Hmem].
Qed.

Lemma write_roles_read_roles (role : string) :
  role ∈ write_roles -> role ∈ read_roles.
Proof.
  unfold write_roles, read_roles. intros Hin.
  repeat (apply elem_of_cons in Hin as [->|Hin];
          [repeat ((left; fail) || right); left|]).
  inversion Hin.
Qed.

Lemma X4_validator_monotone_witness :
  validate_token_and_roles Sample.identity "admin-token" read_roles = Return tt.
Proof.
  apply (X4_validator_monotone Sample.identity "admin-token"
           write_roles read_roles write_roles_read_roles).
  reflexivity.
Defined.

(** X5: when the identity service answers 2xx with a body that is not a JSON
    object, the exception of [response.json()] or of [.get] escapes the
    validator: under every role list it ends with an uncaught exception, each
    endpoint answers 500, and the server is left untouched. *)
Theorem X5_unreadable_identity_answer (env : Env) (token : string)
    (response : Httpx.Response) (s : Server) :
  identity_service env token = Httpx.Responded response ->
  Httpx.is_success response = true ->
  (forall fields : gmap string pyval,
     Httpx.json response <> Httpx.JsonObject fields) ->
  exists exception : string,
    (forall allowed_roles : list string,
       validate_token_and_roles (identity_service env) token allowed_roles =
         Uncaught exception) /\
    get_all_ingredients env token s = (Uncaught exception, s) /\
    http_status HTTP_200_OK (fst (get_all_ingredients env token s)) = 500 /\
    (forall ingredient : IngredientCreate.t,
       add_ingredient env ingredient token s = (Uncaught exception, s)) /\
    (forall (ingredient_id : Z) (ingredient : IngredientUpdate.t),
       update_ingredient env ingredient_id ingredient token s =
         (Uncaught exception, s)) /\
    (forall ingredient_id : Z,
       delete_ingredient env ingredient_id token s = (Uncaught exception, s)).
Proof.
  intros Hreply Hok Hjson.
  assert (Hv : exists exception : string,
             forall allowed_roles : list string,
               validate_token_and_roles (identity_service env) token
                 allowed_roles = Uncaught exception).
  { unfold validate_token_and_roles. rewrite Hreply, Hok. simpl.
    destruct (Httpx.json response) as [|fields|] eqn:Hbody.
    - eexists. intros roles. reflexivity.
    - exfalso. exact (Hjson fields eq_refl).
    - eexists. intros roles. reflexivity. }
  destruct Hv as [exception Hv]. exists exception.
  split; [exact Hv|].
  unfold get_all_ingredients, add_ingredient, update_ingredient,
    delete_ingredient.
  rewrite !Hv. simpl. repeat split; reflexivity.
Qed.

Lemma X5_unreadable_identity_answer_witness :
  exists exception : string,
    (forall allowed_roles : list string,
       validate_token_and_roles Garbled.identity "html-token" allowed_roles =
         Uncaught exception) /\
    get_all_ingredients Garbled.env "html-token" Sample.stocked =
      (Uncaught exception, Sample.stocked) /\
    http_status HTTP_200_OK
      (fst (get_all_ingredients Garbled.env "html-token" Sample.stocked))
      = 500 /\
    (forall ingredient : IngredientCreate.t,
       add_ingredient Garbled.env ingredient "html-token" Sample.stocked =
         (Uncaught exception, Sample.stocked)) /\
    (forall (ingredient_id : Z) (ingredient : IngredientUpdate.t),
       update_ingredient Garbled.env ingredient_id ingredient "html-token"
         Sample.stocked = (Uncaught exception, Sample.stocked)) /\
    (forall ingredient_id : Z,
       delete_ingredient Garbled.env ingredient_id "html-token"
         Sample.stocked = (Uncaught exception, Sample.stocked)).
Proof.
  apply (X5_unreadable_identity_answer Garbled.env "html-token"
           (Httpx.mkResponse 200 "<html>It works</html>" Httpx.NotJson)
           Sample.stocked eq_refl eq_refl).
  intros fields. discriminate.
Defined.

(** ** The endpoints *)

Lemma validated_of_return {A : Type} (validation : outcome unit) (body : DB A)
    (s s' : Server) (a : A) :
  handle validation body s = (Return a, s') -> validation = Return tt.
Proof.
  destruct validation as [[]|code detail|e]; [reflexivity|discriminate..].
Qed.

(** X6: listing never changes the committed table, whoever asks; when it
    returns, it returns one record per row, in the order of the table, and
    the connection it opened is closed again. *)
Theorem X6_list_is_read_only (env : Env) (token : string) (s : Server) :
  persisted (snd (get_all_ingredients env token s)) = persisted s /\
  forall (outs : list IngredientOut.t) (s' : Server),
    get_all_ingredients env token s = (Return outs, s') ->
    outs = map out_of_row (Ingredients (persisted s)) /\
    length outs = length (Ingredients (persisted s)) /\
    trace s' = trace s ++ [EvConnect; EvExecute; EvClose].
Proof.
  destruct (validate_token_and_roles (identity_service env) token read_roles)
    as [[]|code detail|e] eqn:Hv.
  - rewrite (get_all_ingredients_run _ _ _ Hv). split; [reflexivity|].
    intros outs s' Hrun. injection Hrun as <- <-.
    rewrite length_map. repeat split; reflexivity.
  - unfold get_all_ingredients. rewrite Hv. split; [reflexivity|].
    intros outs s' Hrun. discriminate.
  - unfold get_all_ingredients. rewrite Hv. split; [reflexivity|].
    intros outs s' Hrun. discriminate.
Qed.

Lemma X6_list_is_read_only_witness :
  [IngredientOut.mk 1 "Flour" 30 "g" Sample.day Sample.day "Low Stock";
   IngredientOut.mk 2 "Sugar" 0.3 "kg" Sample.day Sample.day "Low Stock"] =
    map out_of_row (Ingredients (persisted Sample.stocked)) /\
  length [IngredientOut.mk 1 "Flour" 30 "g" Sample.day Sample.day "Low Stock";
          IngredientOut.mk 2 "Sugar" 0.3 "kg" Sample.day Sample.day
            "Low Stock"] =
    length (Ingredients (persisted Sample.stocked)) /\
  trace (snd (get_all_ingredients Sample.env "cashier-token" Sample.stocked)) =
    trace Sample.stocked ++ [EvConnect; EvExecute; EvClose].
Proof.
  apply (proj2 (X6_list_is_read_only Sample.env "cashier-token"
                  Sample.stocked)).
  reflexivity.
Defined.

(** X7: what create returns is what a later list shows: after a create that
    returned a record, a validated list returns the records of the table as
    it was before, followed by that record. *)
Theorem X7_created_record_is_listed (env env2 : Env) (token token2 : string)
    (ingredient : IngredientCreate.t) (out : IngredientOut.t) (s s' : Server) :
  add_ingredient env ingredient token s = (Return out, s') ->
  validate_token_and_roles (identity_service env2) token2 read_roles
    = Return tt ->
  fst (get_all_ingredients env2 token2 s') =
    Return (map out_of_row (Ingredients (persisted s)) ++ [out]).
Proof.
  intros Hrun Hv2.
  pose proof (validated_of_return _ _ _ _ _ Hrun) as Hv.
  rewrite (add_ingredient_run _ _ _ _ Hv) in Hrun.
  destruct (fetchone _); [discriminate|].
  simpl in Hrun. injection Hrun as <- <-.
  rewrite (get_all_ingredients_run _ _ _ Hv2). simpl.
  rewrite map_app. reflexivity.
Qed.

Lemma X7_created_record_is_listed_witness :
  fst (get_all_ingredients Sample.env "cashier-token"
         (snd (add_ingredient Sample.env Sample.flour "admin-token"
                 Sample.empty))) =
    Return (map out_of_row (Ingredients (persisted Sample.empty)) ++
            [IngredientOut.mk 1 "Flour" 30 "g" Sample.day Sample.day
               "Low Stock"]).
Proof.
  apply (X7_created_record_is_listed Sample.env Sample.env "admin-token"
           "cashier-token" Sample.flour); reflexivity.
Defined.

Lemma rewrite_rows_idem (row : Row.t) (l : list Row.t) :
  let f := fun r => if Row.IngredientID r =? Row.IngredientID row
                    then row else r in
  map f (map f l) = map f l.
Proof.
  intros f. rewrite map_map. apply map_ext. intros r. unfold f.
  destruct (Row.IngredientID r =? Row.IngredientID row) eqn:E.
  - rewrite Z.eqb_refl. reflexivity.
  - rewrite E. reflexivity.
Qed.

Lemma rewrite_rows_other (row : Row.t) (l : list Row.t) (r' : Row.t) :
  r' ∈ map (fun r => if Row.IngredientID r =? Row.IngredientID row
                     then row else r) l ->
  Row.IngredientID r' <> Row.IngredientID row -> r' ∈ l.
Proof.
  intros Hin Hne. apply list_elem_of_fmap in Hin as (r & -> & Hr).
  destruct (Row.IngredientID r =? Row.IngredientID row);
    [contradiction|exact Hr].
Qed.

Lemma rewrite_rows_has_id (row : Row.t) (l : list Row.t) (r : Row.t) :
  r ∈ l -> Row.IngredientID r = Row.IngredientID row ->
  row ∈ map (fun r => if Row.IngredientID r =? Row.IngredientID row
                      then row else r) l.
Proof.
  intros Hr Hid. apply list_elem_of_fmap. exists r. split; [|exact Hr].
  apply Z.eqb_eq in Hid. rewrite Hid. reflexivity.
Qed.

(** X8: update is idempotent: when an update returned a record, the same
    update sent again by a validated caller returns the same record and
    leaves the committed table as the first one left it. *)
Theorem X8_update_idempotent (env env2 : Env) (token token2 : string)
    (ingredient_id : Z) (ingredient : IngredientUpdate.t)
    (out : IngredientOut.t) (s s' : Server) :
  update_ingredient env ingredient_id ingredient token s = (Return out, s') ->
  validate_token_and_roles (identity_service env2) token2 write_roles
    = Return tt ->
  fst (update_ingredient env2 ingredient_id ingredient token2 s') = Return out /\
  persisted (snd (update_ingredient env2 ingredient_id ingredient token2 s')) =
    persisted s'.
Proof.
  intros Hrun Hv2.
  pose proof (validated_of_return _ _ _ _ _ Hrun) as Hv.
  rewrite (update_ingredient_run _ _ _ _ _ Hv) in Hrun.
  destruct (fetchone (fst (Sql.select_1_by_name_except _ _ _))) eqn:Hfree;
    [discriminate|].
  destruct (fetchone (fst (Sql.select_by_id _ _))) as [r0|] eqn:Hid;
    [|discriminate].
  simpl in Hrun. injection Hrun as <- <-.
  apply fetchone_by_name_except_None in Hfree.
  apply fetchone_by_id_Some in Hid as (r & Hr & Hrid).
  set (row := row_of_update ingredient_id ingredient) in *.
  rewrite (update_ingredient_run _ _ _ _ _ Hv2). cbn [persisted trace].
  assert (Hfree' : fetchone (fst (Sql.select_1_by_name_except
                     (IngredientUpdate.IngredientName ingredient) ingredient_id
                     {| Ingredients :=
                          map (fun r => if Row.IngredientID r =? ingredient_id
                                        then row else r)
                            (Ingredients (persisted s));
                        next_identity := next_identity (persisted s) |}))
                   = None).
  { apply fetchone_by_name_except_None. intros (r' & Hr' & Hm & Hne).
    apply Hfree. exists r'. split; [|split; assumption].
    simpl in Hr'. exact (rewrite_rows_other row _ r' Hr' Hne). }
  rewrite Hfree'.
  assert (Hid' : is_Some (fetchone (fst (Sql.select_by_id ingredient_id
                     {| Ingredients :=
                          map (fun r => if Row.IngredientID r =? ingredient_id
                                        then row else r)
                            (Ingredients (persisted s));
                        next_identity := next_identity (persisted s) |})))).
  { apply has_id_fetchone. exists row. split; [|reflexivity].
    simpl. exact (rewrite_rows_has_id row _ r Hr Hrid). }
  destruct Hid' as [r1 ->]. cbn [fst snd persisted Ingredients].
  rewrite (rewrite_rows_idem row). split; reflexivity.
Qed.

Lemma X8_update_idempotent_witness :
  fst (update_ingredient Sample.env 1 Sample.flour_refill "admin-token"
         (snd (update_ingredient Sample.env 1 Sample.flour_refill
                 "admin-token" Sample.stocked))) =
    Return (IngredientOut.mk 1 "Flour" 900 "G" Sample.day Sample.day
              "Available") /\
  persisted (snd (update_ingredient Sample.env 1 Sample.flour_refill
                    "admin-token"
                    (snd (update_ingredient Sample.env 1 Sample.flour_refill
                            "admin-token" Sample.stocked)))) =
    persisted (snd (update_ingredient Sample.env 1 Sample.flour_refill
                      "admin-token" Sample.stocked)).
Proof.
  apply (X8_update_idempotent Sample.env Sample.env "admin-token"
           "admin-token" 1 Sample.flour_refill
           (IngredientOut.mk 1 "Flour" 900 "G" Sample.day Sample.day
              "Available")
           Sample.stocked); reflexivity.
Defined.

Lemma rows_after_delete (env : Env) (ingredient_id : Z) (token : string)
    (s : Server) (r : Row.t) :
  validate_token_and_roles (identity_service env) token write_roles = Return tt ->
  r ∈ Ingredients (persisted (snd (delete_ingredient env ingredient_id token s)))
  <-> r ∈ Ingredients (persisted s) /\ Row.IngredientID r <> ingredient_id.
Proof.
  intros Hv. rewrite (delete_ingredient_run _ _ _ _ Hv).
  destruct (Z.eqb_spec (fst (Sql.delete ingredient_id (persisted s))) 0)
    as [H0|Hn]; simpl.
  - apply rowcount_zero in H0. split; [|tauto].
    intros Hr. split; [exact Hr|]. intros Hid. apply H0.
    exists r. split; assumption.
  - rewrite list_elem_of_filter.
    rewrite <- Z.eqb_neq, <- negb_true_iff, <- Is_true_true. tauto.
Qed.

(** X9: deleting a record frees its name: in a table with unique names,
    once a validated delete has removed the record, a validated create under
    that name, in any letter case, is not refused as a duplicate. *)
Theorem X9_delete_frees_name (env env2 : Env) (token token2 : string)
    (r : Row.t) (ingredient : IngredientCreate.t) (s : Server) :
  names_unique (persisted s) ->
  r ∈ Ingredients (persisted s) ->
  Str.ci_eqb (IngredientCreate.IngredientName ingredient)
    (Row.IngredientName r) = true ->
  validate_token_and_roles (identity_service env) token write_roles = Return tt ->
  validate_token_and_roles (identity_service env2) token2 write_roles
    = Return tt ->
  let s' := snd (delete_ingredient env (Row.IngredientID r) token s) in
  fst (add_ingredient env2 ingredient token2 s') =
    Return (out_of_row (row_of_create (next_identity (persisted s)) ingredient)).
Proof.
  intros Huniq Hr Hci Hv Hv2 s'.
  assert (Hnext : next_identity (persisted s') = next_identity (persisted s)).
  { unfold s'. rewrite (delete_ingredient_run _ _ _ _ Hv).
    destruct (_ =? 0); reflexivity. }
  assert (Hfree : ~ has_name (IngredientCreate.IngredientName ingredient)
                      (persisted s')).
  { intros (r' & Hr' & Hm).
    apply (rows_after_delete _ _ _ _ _ Hv) in Hr' as [Hr' Hne].
    apply Hne. apply (Huniq r' r Hr' Hr).
    exact (ci_eqb_trans _ _ _ Hm Hci). }
  rewrite (add_ingredient_run _ _ _ _ Hv2).
  apply fetchone_by_name_None in Hfree. rewrite Hfree. simpl.
  rewrite Hnext. reflexivity.
Qed.

Lemma X9_delete_frees_name_witness :
  fst (add_ingredient Sample.env Sample.flour_again "admin-token"
         (snd (delete_ingredient Sample.env 1 "admin-token" Sample.stocked))) =
    Return (IngredientOut.mk 3 "flour" 2 "kg" Sample.day Sample.day
              "Available").
Proof.
  apply (X9_delete_frees_name Sample.env Sample.env "admin-token"
           "admin-token"
           (Row.mk 1 "Flour" 30 "g" Sample.day Sample.day "Low Stock")
           Sample.flour_again Sample.stocked stocked_names_unique);
    [left|reflexivity..].
Defined.

(** X10: a record may change the letter case of its own name: in a table
    with unique names, a validated update of a record to a name that matches
    its current name under the collation is not refused as a duplicate. *)
Theorem X10_update_own_name_case (env : Env) (token : string) (r : Row.t)
    (ingredient : IngredientUpdate.t) (s : Server) :
  names_unique (persisted s) ->
  r ∈ Ingredients (persisted s) ->
  Str.ci_eqb (IngredientUpdate.IngredientName ingredient)
    (Row.IngredientName r) = true ->
  validate_token_and_roles (identity_service env) token write_roles = Return tt ->
  fst (update_ingredient env (Row.IngredientID r) ingredient token s) =
    Return (out_of_row (row_of_update (Row.IngredientID r) ingredient)).
Proof.
  intros Huniq Hr Hci Hv.
  rewrite (update_ingredient_run _ _ _ _ _ Hv).
  assert (Hfree : ~ has_name_except (IngredientUpdate.IngredientName ingredient)
                      (Row.IngredientID r) (persisted s)).
  { intros (r' & Hr' & Hm & Hne). apply Hne.
    apply (Huniq r' r Hr' Hr). exact (ci_eqb_trans _ _ _ Hm Hci). }
  apply fetchone_by_name_except_None in Hfree. rewrite Hfree.
  assert (Hid : is_Some (fetchone (fst (Sql.select_by_id (Row.IngredientID r)
                                          (persisted s))))).
  { apply has_id_fetchone. exists r. split; [exact Hr|reflexivity]. }
  destruct Hid as [r0 ->]. reflexivity.
Qed.

Lemma X10_update_own_name_case_witness :
  fst (update_ingredient Sample.env 1 Sample.sugar_as_flour "admin-token"
         Sample.stocked) =
    Return (IngredientOut.mk 1 "FLOUR" 0 "kg" Sample.day Sample.day
              "Not Available").
Proof.
  apply (X10_update_own_name_case Sample.env "admin-token"
           (Row.mk 1 "Flour" 30 "g" Sample.day Sample.day "Low Stock")
           Sample.sugar_as_flour Sample.stocked stocked_names_unique);
    [left|reflexivity..].
Defined.

(** X11: delete never closes its connection: after a validated delete the
    events of the request hold no close, whether the row existed or not,
    while a validated create or update always ends by closing the connection
    it opened. *)
Theorem X11_delete_leaves_connection_open (env : Env) (token : string)
    (s : Server) :
  validate_token_and_roles (identity_service env) token write_roles = Return tt ->
  (forall ingredient_id : Z,
     exists later : list db_event,
       trace (snd (delete_ingredient env ingredient_id token s)) =
         trace s ++ EvConnect :: later /\
       (EvClose ∉ later)) /\
  (forall ingredient : IngredientCreate.t,
     exists later : list db_event,
       trace (snd (add_ingredient env ingredient token s)) =
         trace s ++ EvConnect :: later ++ [EvClose]) /\
  (forall (ingredient_id : Z) (ingredient : IngredientUpdate.t),
     exists later : list db_event,
       trace (snd (update_ingredient env ingredient_id ingredient token s)) =
         trace s ++ EvConnect :: later ++ [EvClose]).
Proof.
  intros Hv. split; [|split].
  - intros ingredient_id. rewrite (delete_ingredient_run _ _ _ _ Hv).
    destruct (_ =? 0); eexists; (split; [reflexivity|]); intros Hin;
      repeat (apply elem_of_cons in Hin as [Heq|Hin]; [discriminate Heq|]);
      inversion Hin.
  - intros ingredient. rewrite (add_ingredient_run _ _ _ _ Hv).
    destruct (fetchone _).
    + exists [EvExecute]. reflexivity.
    + exists [EvExecute; EvExecute; EvCommit]. reflexivity.
  - intros ingredient_id ingredient.
    rewrite (update_ingredient_run _ _ _ _ _ Hv).
    destruct (fetchone _); [|destruct (fetchone _)].
    + exists [EvExecute]. reflexivity.
    + exists [EvExecute; EvExecute; EvExecute; EvCommit]. reflexivity.
    + exists [EvExecute; EvExecute; EvExecute]. reflexivity.
Qed.

Lemma X11_delete_leaves_connection_open_witness :
  (exists later : list db_event,
     trace (snd (delete_ingredient Sample.env 1 "admin-token" Sample.stocked)) =
       trace Sample.stocked ++ EvConnect :: later /\
     (EvClose ∉ later)) /\
  (exists later : list db_event,
     trace (snd (add_ingredient Sample.env Sample.flour "admin-token"
                   Sample.stocked)) =
       trace Sample.stocked ++ EvConnect :: later ++ [EvClose]).
Proof.
  destruct (X11_delete_leaves_connection_open Sample.env "admin-token"
              Sample.stocked eq_refl) as (Hdelete & Hadd & _).
  split; [exact (Hdelete 1)|exact (Hadd Sample.flour)].
Defined.



(** X13: what each write keeps of the table. An update, however it ends,
    keeps the rows in place with their identifiers and keeps the identity
    counter; a delete only removes rows; a create keeps every row where it
    was and adds at most one after them. *)
Theorem X13_what_each_write_keeps (env : Env) (token : string) (s : Server) :
  (forall (ingredient_id : Z) (ingredient : IngredientUpdate.t),
     let db := persisted (snd (update_ingredient env ingredient_id ingredient
                                 token s)) in
     map Row.IngredientID (Ingredients db) =
       map Row.IngredientID (Ingredients (persisted s)) /\
     next_identity db = next_identity (persisted s)) /\
  (forall ingredient_id : Z,
     let db := persisted (snd (delete_ingredient env ingredient_id token s)) in
     sublist (Ingredients db) (Ingredients (persisted s)) /\
     next_identity db = next_identity (persisted s)) /\
  (forall ingredient : IngredientCreate.t,
     let db := persisted (snd (add_ingredient env ingredient token s)) in
     Ingredients db = Ingredients (persisted s) \/
     exists row : Row.t,
       Ingredients db = Ingredients (persisted s) ++ [row] /\
       Row.IngredientID row = next_identity (persisted s) /\
       next_identity db = next_identity (persisted s) + 1).
Proof.
  split; [|split].
  - intros ingredient_id ingredient db. unfold db.
    destruct (validate_token_and_roles (identity_service env) token write_roles)
      as [[]|code detail|e] eqn:Hv;
      [|unfold update_ingredient; rewrite Hv; split; reflexivity..].
    rewrite (update_ingredient_run _ _ _ _ _ Hv).
    destruct (fetchone (fst (Sql.select_1_by_name_except _ _ _)));
      [split; reflexivity|].
    destruct (fetchone (fst (Sql.select_by_id _ _))); [|split; reflexivity].
    simpl. split; [|reflexivity].
    rewrite map_map. apply map_ext. intros r.
    destruct (Z.eqb_spec (Row.IngredientID r) ingredient_id) as [->|_];
      reflexivity.
  - intros ingredient_id db. unfold db.
    destruct (validate_token_and_roles (identity_service env) token write_roles)
      as [[]|code detail|e] eqn:Hv;
      [|unfold delete_ingredient; rewrite Hv; split; reflexivity..].
    rewrite (delete_ingredient_run _ _ _ _ Hv).
    destruct (_ =? 0); simpl; [split; reflexivity|].
    split; [apply sublist_filter|reflexivity].
  - intros ingredient db. unfold db.
    destruct (validate_token_and_roles (identity_service env) token write_roles)
      as [[]|code detail|e] eqn:Hv;
      [|unfold add_ingredient; rewrite Hv; left; reflexivity..].
    rewrite (add_ingredient_run _ _ _ _ Hv).
    destruct (fetchone _); [left; reflexivity|].
    right. eexists. simpl. repeat split; reflexivity.
Qed.




Lemma get_status_label (amount : float) (measurement : option string) :
  get_status amount measurement ∈ ["Not Available"; "Low Stock"; "Available"].
Proof.
  unfold get_status. destruct (amount <=? 0)%float; [left|].
  destruct (amount <=? _)%float; [right; left|right; right; left].
Qed.

(** X16: in every state reached from an empty table by requests served one
    after the other, identifiers are distinct and below the identity counter,
    no two records have names that match under the collation, and the status
    of every row is the one [get_status] gives for the stored amount and unit,
    hence one of the three labels. *)
Theorem X16_reachable_tables (requests : list (Env * request)) (n : Z)
    (events : list db_event) :
  let db := persisted (serve_all requests (mkServer (mkDatabase [] n) events)) in
  ids_unique db /\
  names_unique db /\
  Forall (fun r =>
            Row.Status r = get_status (Row.Amount r) (Some (Row.Unit r)) /\
            Row.Status r ∈ ["Not Available"; "Low Stock"; "Available"])
    (Ingredients db).
Proof.
  intros db.
  destruct (reachable_invariants requests n events) as [[Hids Hnames] Hst].
  split; [exact Hids|]. split; [exact Hnames|].
  eapply Forall_impl; [exact Hst|]. simpl. intros r Hr.
  split; [exact Hr|]. rewrite Hr. apply get_status_label.
Qed.

(** ** Start-up of the products service *)




